(** * Nexis biometric collector: a shallow embedding and its properties

    The development follows [nexis_biometric_collector.py]: the reading
    record [BiometricState], the feature encoder
    [create_cognitive_embeddings], the aggregator and pipeline step
    [process_and_store], the sampler [collect_current_state] and the
    collection loop [start_continuous_collection] with [stop_collection].

    Dictionaries with string keys are [gmap string _]; Python floats are
    the kernel's binary64 numbers; statements that may raise live in a
    small state-and-exception monad over the collector object and the
    lines it prints. *)

From Stdlib Require Import ZArith Floats.
From stdpp Require Import gmap strings list fin_maps.

(** ** Numbers *)

(** A metric value is a Python number, represented by the double it
    denotes.  The integers the collector handles (hour of the day, day
    of the week, number of task switches) are far below [2^53] and denote
    themselves: dividing such an [int] by a float literal, or storing it
    in a float32 array, first converts it to this very double. *)
Abbreviation pyval := float.

(** [float(n)]: the double nearest to the integer [n] (ties to even). *)
Definition float_of_int (n : Z) : float :=
  SF2Prim (binary_normalize 53 1024 n 0 false).

(** The cast of a double to [np.float32]: rounding to nearest-even in the
    binary32 format (24 bits of precision, exponents below 128), with its
    subnormals, its overflow to an infinity and signed zeros kept.  The
    result is given as the double of the same value. *)
Definition to_float32 (x : float) : float :=
  match Prim2SF x with
  | S754_finite s m e =>
      SF2Prim (binary_normalize 24 128 (cond_Zopp s (Zpos m)) e s)
  | _ => x
  end.

(** [np.zeros(n)] and [np.array(l, dtype=np.float32)], as the sequence of
    the array's entries. *)
Definition np_zeros (n : nat) : list float := replicate n 0%float.
Definition np_array_float32 (l : list pyval) : list float := to_float32 <$> l.

(** [0 <= x <= 1], as the comparisons of doubles decide it. *)
Definition in_unit_interval (x : float) : bool :=
  (0 <=? x)%float && (x <=? 1)%float.

(** ** Readings *)

(** What the collector observes of a [datetime]: which instant it is, its
    [hour] attribute and its [weekday()]. *)
Record datetime : Type := Datetime {
  instant : Z;
  hour : Z;
  weekday : Z
}.

Record BiometricState : Type := mkBiometricState {
  timestamp : datetime;
  physiological : gmap string pyval;
  cognitive : gmap string pyval;
  behavioral : gmap string pyval;
  environmental : gmap string pyval
}.

(** [d.get(key, default)]; the encoder's default is the integer [0],
    the double zero here. *)
Definition dict_get (d : gmap string pyval) (key : string) (dflt : pyval) : pyval :=
  default dflt (d !! key).
Arguments dict_get d key%_string dflt%_float.

(** ** Feature encoder *)

Definition phys_features (state : BiometricState) : list pyval :=
  [ dict_get (physiological state) "heart_rate" 0;
    dict_get (physiological state) "hrv_rmssd" 0;
    dict_get (physiological state) "gsr" 0;
    dict_get (physiological state) "temperature" 0;
    dict_get (physiological state) "respiratory_rate" 0 ].

Definition cog_features (state : BiometricState) : list pyval :=
  [ dict_get (cognitive state) "attention_level" 0;
    dict_get (cognitive state) "cognitive_load" 0;
    dict_get (cognitive state) "focus_stability" 0;
    dict_get (cognitive state) "executive_function" 0 ].

Definition behav_features (state : BiometricState) : list pyval :=
  [ dict_get (behavioral state) "typing_rhythm" 0;
    dict_get (behavioral state) "stress_indicators" 0 ].

Definition env_features (state : BiometricState) : list pyval :=
  [ (dict_get (environmental state) "time_of_day" 0 / 24)%float;
    (dict_get (environmental state) "day_of_week" 0 / 7)%float;
    dict_get (environmental state) "ambient_light" 0;
    dict_get (environmental state) "noise_level" 0 ].

(** The list one pass of the loop body hands to [features.extend]. *)
Definition state_features (state : BiometricState) : list pyval :=
  phys_features state ++ cog_features state ++ behav_features state
    ++ env_features state.

Definition create_cognitive_embeddings
    (telemetry_window : list BiometricState) : list float :=
  match telemetry_window with
  | [] => np_zeros 768
  | _ =>
      let features :=
        foldl (λ features state, features ++ state_features state)
              [] telemetry_window in
      let features := take 768 features in
      let features :=
        if decide (length features < 768)
        then features ++ replicate (768 - length features) 0%float
        else features in
      np_array_float32 features
  end.

(** The values [features] holds when the loop over the window is over:
    the fifteen numbers of each reading, in window order. *)
Definition raw_features (telemetry_window : list BiometricState) : list pyval :=
  concat (state_features <$> telemetry_window).

(** ** The collector object *)

(** One logged sample, [{'timestamp': ..., 'value': ...}]. *)
Record entry : Type := Entry {
  entry_timestamp : datetime;
  entry_value : pyval
}.

Record collector : Type := Collector {
  telemetry_streams : gmap string (gmap string (list entry));
  collection_active : bool;
  sample_rate : float
}.

Definition physiological_streams : gmap string (list entry) :=
  list_to_map
    [ ("heart_rate_variability"%string, []);
      ("galvanic_skin_response"%string, []);
      ("eye_tracking_patterns"%string, []);
      ("brain_wave_states"%string, []);
      ("respiratory_patterns"%string, []);
      ("temperature_fluctuations"%string, []) ].

Definition cognitive_state_streams : gmap string (list entry) :=
  list_to_map
    [ ("attention_vectors"%string, []);
      ("context_switch_patterns"%string, []);
      ("decision_hesitation_markers"%string, []);
      ("cognitive_load_indicators"%string, []);
      ("hyperfocus_episodes"%string, []);
      ("executive_function_states"%string, []) ].

Definition behavioral_patterns_streams : gmap string (list entry) :=
  list_to_map
    [ ("typing_dynamics"%string, []);
      ("code_writing_patterns"%string, []);
      ("problem_solving_sequences"%string, []);
      ("communication_styles"%string, []);
      ("stress_response_patterns"%string, []);
      ("creativity_bursts"%string, []) ].

Definition environmental_context_streams : gmap string (list entry) :=
  list_to_map
    [ ("time_of_day_performance"%string, []);
      ("ambient_conditions"%string, []);
      ("social_interaction_modes"%string, []);
      ("task_type_preferences"%string, []) ].

(** [NexisBiometricCollector()] *)
Definition __init__ : collector :=
  {| telemetry_streams :=
       list_to_map
         [ ("physiological"%string, physiological_streams);
           ("cognitive_state"%string, cognitive_state_streams);
           ("behavioral_patterns"%string, behavioral_patterns_streams);
           ("environmental_context"%string, environmental_context_streams) ];
     collection_active := false;
     sample_rate := 1%float |}.

(** ** Statements: state, printed lines, exceptions *)

(** [KeyError], [ZeroDivisionError] and whatever else derives from
    [Exception]; [CancelledError] and [KeyboardInterrupt] derive from
    [BaseException] only. *)
Inductive exn : Type :=
  | KeyError (key : string)
  | ZeroDivisionError
  | OtherException (what : string)
  | CancelledError
  | KeyboardInterrupt.

Definition is_Exception (e : exn) : bool :=
  match e with
  | CancelledError | KeyboardInterrupt => false
  | _ => true
  end.

(** The four lines the class prints. *)
Inductive message : Type :=
  | Starting
  | CollectionError (e : exn)
  | StoredRecord (ts : datetime)
  | Stopped.

(** What a run does to the outside: a printed line, or a wait of so many
    seconds. *)
Inductive event : Type :=
  | Print (m : message)
  | Sleep (seconds : float).

Record world : Type := World {
  self : collector;
  trace : list event
}.

Inductive result (A : Type) : Type :=
  | Ok (a : A)
  | Raise (e : exn).
Arguments Ok {A} a.
Arguments Raise {A} e.

Definition M (A : Type) : Type := world → world * result A.

Definition ret {A} (a : A) : M A := λ w, (w, Ok a).
Definition raise {A} (e : exn) : M A := λ w, (w, Raise e).
Definition bind {A B} (m : M A) (k : A → M B) : M B :=
  λ w, match m w with
       | (w', Ok a) => k a w'
       | (w', Raise e) => (w', Raise e)
       end.

Notation "'do' x <- m ; k" := (bind m (λ x, k))
  (at level 10, x pattern, m at level 100, k at level 200).

Definition get_self : M collector := λ w, (w, Ok (self w)).
Definition put_self (c : collector) : M unit :=
  λ w, ({| self := c; trace := trace w |}, Ok tt).
Definition emit (ev : event) : M unit :=
  λ w, ({| self := self w; trace := trace w ++ [ev] |}, Ok tt).
Definition print (m : message) : M unit := emit (Print m).

(** [for x in l: body(x)] *)
Fixpoint for_each {A} (l : list A) (body : A → M unit) : M unit :=
  match l with
  | [] => ret tt
  | x :: l => do _ <- body x; for_each l body
  end.

(** [try: body / except Exception as e: handler(e)] *)
Definition try_except {A} (body : M A) (handler : exn → M A) : M A :=
  λ w, match body w with
       | (w', Raise e) => if is_Exception e then handler e w' else (w', Raise e)
       | r => r
       end.

(** [x / y] on floats *)
Definition py_truediv (x y : float) : M float :=
  if PrimFloat.is_zero y then raise ZeroDivisionError else ret (x / y)%float.

(** ** Aggregator and pipeline step *)

(** [if key in self.telemetry_streams[category]:
        self.telemetry_streams[category][key].append(e)] *)
Definition append_if_declared (category key : string) (e : entry) : M unit :=
  do c <- get_self;
  match telemetry_streams c !! category with
  | None => raise (KeyError category)
  | Some stream =>
      match stream !! key with
      | None => ret tt
      | Some log =>
          put_self
            {| telemetry_streams :=
                 <[category := <[key := log ++ [e]]> stream]> (telemetry_streams c);
               collection_active := collection_active c;
               sample_rate := sample_rate c |}
      end
  end.

(** The list the outer loop of [process_and_store] runs over: each
    category of the log with the reading's mapping stored under it. *)
Definition category_data (state : BiometricState)
    : list (string * gmap string pyval) :=
  [ ("physiological"%string, physiological state);
    ("cognitive_state"%string, cognitive state);
    ("behavioral_patterns"%string, behavioral state);
    ("environmental_context"%string, environmental state) ].

(** The first loop of [process_and_store].  [data.items()] is walked in
    the order the mapping lists its keys; each key of a mapping occurs
    once and has a sequence of its own in the log, so the order of the
    walk does not show in the result. *)
Definition store_in_streams (state : BiometricState) : M unit :=
  for_each (category_data state)
    (λ '(category, data),
       for_each (map_to_list data)
         (λ '(key, value),
            append_if_declared category key
              {| entry_timestamp := timestamp state; entry_value := value |})).

Definition _get_recent_states (c : collector) (window_minutes : Z)
    : list BiometricState := [].

Record training_record : Type := TrainingRecord {
  record_timestamp : datetime;
  cognitive_embedding : list float;
  raw_state : gmap string (gmap string pyval)
}.

Definition _store_training_data (state : BiometricState) (embeddings : list float)
    : M unit :=
  let training_record :=
    {| record_timestamp := timestamp state;
       cognitive_embedding := embeddings;
       raw_state :=
         list_to_map
           [ ("physiological"%string, physiological state);
             ("cognitive"%string, cognitive state);
             ("behavioral"%string, behavioral state);
             ("environmental"%string, environmental state) ] |} in
  print (StoredRecord (timestamp state)).

(** ** Sampler *)

(** The numbers one call of [collect_current_state] takes from
    [np.random], in the order it draws them. *)
Record draws : Type := Draws {
  normal_0_5 : float;            (* np.random.normal(0, 5) *)
  normal_0_10 : float;           (* np.random.normal(0, 10) *)
  uniform_gsr : float;           (* np.random.uniform(0.1, 2.0) *)
  normal_0_05 : float;           (* np.random.normal(0, 0.5) *)
  normal_0_2 : float;            (* np.random.normal(0, 2) *)
  uniform_attention : float;     (* np.random.uniform(0, 1), and so below *)
  uniform_load : float;
  uniform_focus : float;
  uniform_executive : float;
  uniform_typing : float;
  uniform_mouse : float;
  randint_0_5 : Z;               (* np.random.randint(0, 5) *)
  uniform_stress : float;
  uniform_light : float;
  uniform_noise : float
}.

Definition _simulate_heart_rate (r : draws) : float := (70 + normal_0_5 r)%float.
Definition _simulate_hrv (r : draws) : float := (50 + normal_0_10 r)%float.
Definition _simulate_gsr (r : draws) : float := uniform_gsr r.
(** [98.6] is the double [0x1.8a66666666666p+6]. *)
Definition _simulate_temperature (r : draws) : float :=
  (0x1.8a66666666666p+6 + normal_0_05 r)%float.
Definition _simulate_respiratory_rate (r : draws) : float := (16 + normal_0_2 r)%float.
Definition _estimate_attention (r : draws) : float := uniform_attention r.
Definition _estimate_cognitive_load (r : draws) : float := uniform_load r.
Definition _estimate_focus_stability (r : draws) : float := uniform_focus r.
Definition _estimate_executive_function (r : draws) : float := uniform_executive r.
Definition _analyze_typing_patterns (r : draws) : float := uniform_typing r.
Definition _analyze_mouse_patterns (r : draws) : float := uniform_mouse r.
Definition _detect_task_switches (r : draws) : Z := randint_0_5 r.
Definition _detect_stress_markers (r : draws) : float := uniform_stress r.
Definition _measure_ambient_light (r : draws) : float := uniform_light r.
Definition _measure_noise_level (r : draws) : float := uniform_noise r.

(** [collect_current_state], given what [datetime.now()] returns and the
    random draws. *)
Definition collect_current_state (now : datetime) (r : draws) : BiometricState :=
  let timestamp := now in
  let physiological : gmap string pyval :=
    list_to_map
      [ ("heart_rate"%string, _simulate_heart_rate r);
        ("hrv_rmssd"%string, _simulate_hrv r);
        ("gsr"%string, _simulate_gsr r);
        ("temperature"%string, _simulate_temperature r);
        ("respiratory_rate"%string, _simulate_respiratory_rate r) ] in
  let cognitive : gmap string pyval :=
    list_to_map
      [ ("attention_level"%string, _estimate_attention r);
        ("cognitive_load"%string, _estimate_cognitive_load r);
        ("focus_stability"%string, _estimate_focus_stability r);
        ("executive_function"%string, _estimate_executive_function r) ] in
  let behavioral : gmap string pyval :=
    list_to_map
      [ ("typing_rhythm"%string, _analyze_typing_patterns r);
        ("mouse_dynamics"%string, _analyze_mouse_patterns r);
        ("task_switching"%string, float_of_int (_detect_task_switches r));
        ("stress_indicators"%string, _detect_stress_markers r) ] in
  let environmental : gmap string pyval :=
    list_to_map
      [ ("time_of_day"%string, float_of_int (hour timestamp));
        ("day_of_week"%string, float_of_int (weekday timestamp));
        ("ambient_light"%string, _measure_ambient_light r);
        ("noise_level"%string, _measure_noise_level r) ] in
  {| timestamp := timestamp;
     physiological := physiological;
     cognitive := cognitive;
     behavioral := behavioral;
     environmental := environmental |}.

(** ** The collection loop *)

(** What happens while the task is suspended in [asyncio.sleep]: nothing,
    or another task calls [stop_collection], or the task is cancelled
    (which is how an interrupt reaches a coroutine under [asyncio.run]). *)
Inductive await_event : Type :=
  | Resumed
  | StopRequested
  | Cancelled.

(** The environment of one pass of the loop. *)
Record tick : Type := Tick {
  now : datetime;
  rng : draws;
  during_sleep : await_event
}.

Definition stop_collection : M unit :=
  do c <- get_self;
  do _ <- put_self
    {| telemetry_streams := telemetry_streams c;
       collection_active := false;
       sample_rate := sample_rate c |};
  print Stopped.

Definition asyncio_sleep (ev : await_event) (seconds : float) : M unit :=
  do _ <- emit (Sleep seconds);
  match ev with
  | Resumed => ret tt
  | StopRequested => stop_collection
  | Cancelled => raise CancelledError
  end.

(** How a finite schedule of ticks leaves the loop: the [while] test
    failed and the coroutine returned, an exception left it, or the
    schedule ran out with the loop still going. *)
Inductive outcome : Type :=
  | Returned
  | Propagated (e : exn)
  | StillRunning.

(** The methods the driver awaits are looked up on [self]: the sampler
    and the persistence call are the two places where the class says an
    implementation is to be supplied, so the driver is written over
    them. *)
Section Pipeline.
Variable sample : tick → M BiometricState.
Variable persist : BiometricState → list float → M unit.

Definition process_and_store (state : BiometricState) : M unit :=
  do _ <- store_in_streams state;
  do c <- get_self;
  let recent_states := _get_recent_states c 5 in
  let embeddings := create_cognitive_embeddings recent_states in
  persist state embeddings.

(** The suite of the [try]: sample, process and store, wait for the
    next sample. *)
Definition try_suite (t : tick) : M unit :=
  do state <- sample t;
  do _ <- process_and_store state;
  do c <- get_self;
  do seconds <- py_truediv 1 (sample_rate c);
  asyncio_sleep (during_sleep t) seconds.

(** The suite of [except Exception as e]. *)
Definition except_suite (t : tick) (e : exn) : M unit :=
  do _ <- print (CollectionError e);
  asyncio_sleep (during_sleep t) 1.

(** The body of the [while]: the [try] statement. *)
Definition iteration (t : tick) : M unit :=
  try_except (try_suite t) (except_suite t).

(** [while self.collection_active: ...], one tick per pass; the ticks
    left over are returned with the outcome. *)
Fixpoint while_collection_active (schedule : list tick) (w : world)
    : world * outcome * list tick :=
  if collection_active (self w) then
    match schedule with
    | [] => (w, StillRunning, [])
    | t :: schedule' =>
        match iteration t w with
        | (w', Ok _) => while_collection_active schedule' w'
        | (w', Raise e) => (w', Propagated e, schedule')
        end
    end
  else (w, Returned, schedule).

Definition start_continuous_collection (schedule : list tick) (w : world)
    : world * outcome * list tick :=
  let c := self w in
  let w :=
    {| self := {| telemetry_streams := telemetry_streams c;
                  collection_active := true;
                  sample_rate := sample_rate c |};
       trace := trace w ++ [Print Starting] |} in
  while_collection_active schedule w.
End Pipeline.

(** The class as written: simulated sensors, and a persistence stub that
    only prints. *)
Definition simulated_sensors (t : tick) : M BiometricState :=
  ret (collect_current_state (now t) (rng t)).

Definition nexis_process_and_store : BiometricState → M unit :=
  process_and_store _store_training_data.

Definition nexis_iteration : tick → M unit :=
  iteration simulated_sensors _store_training_data.

Definition nexis_collection : list tick → world → world * outcome * list tick :=
  start_continuous_collection simulated_sensors _store_training_data.

(** A fresh collector that has printed nothing yet. *)
Definition fresh : world := {| self := __init__; trace := [] |}.

(** ** Reading the log *)

(** The sequence logged under a category and a metric name, if that name
    is declared there; the value a reading carries for them, if any. *)
Definition log_of (streams : gmap string (gmap string (list entry)))
    (category key : string) : option (list entry) :=
  streams !! category ≫= λ stream, stream !! key.

Definition value_of (state : BiometricState) (category key : string)
    : option pyval :=
  (list_to_map (category_data state) : gmap string (gmap string pyval))
    !! category ≫= λ data, data !! key.

(** The mapping of a reading that belongs under a category of the log:
    [physiological] under ['physiological'], [cognitive] under
    ['cognitive_state'], [behavioral] under ['behavioral_patterns'],
    [environmental] under ['environmental_context'], and nothing under
    any other name.  Written out name by name, apart from the list the
    aggregator runs over. *)
Definition mapping_under (state : BiometricState) (category : string)
    : gmap string pyval :=
  if decide (category = "physiological"%string) then physiological state
  else if decide (category = "cognitive_state"%string) then cognitive state
  else if decide (category = "behavioral_patterns"%string) then behavioral state
  else if decide (category = "environmental_context"%string)
       then environmental state
  else ∅.

(** The log has the four categories the aggregator indexes it with. *)
Definition has_categories (streams : gmap string (gmap string (list entry)))
    : bool :=
  forallb (λ category, bool_decide (is_Some (streams !! category)))
    [ "physiological"%string; "cognitive_state"%string;
      "behavioral_patterns"%string; "environmental_context"%string ].

(** The world with another log, all else kept. *)
Definition with_streams (w : world)
    (streams : gmap string (gmap string (list entry))) : world :=
  {| self := {| telemetry_streams := streams;
                collection_active := collection_active (self w);
                sample_rate := sample_rate (self w) |};
     trace := trace w |}.

(** What the two loops of the aggregator do to the log, as folds. *)
Definition append_items (ts : datetime) (category : string)
    (items : list (string * pyval))
    (streams : gmap string (gmap string (list entry)))
    : gmap string (gmap string (list entry)) :=
  foldl (λ s '(key, value),
           alter (alter (λ log, log ++ [Entry ts value]) key) category s)
        streams items.

Definition append_categories (ts : datetime)
    (cats : list (string * gmap string pyval))
    (streams : gmap string (gmap string (list entry)))
    : gmap string (gmap string (list entry)) :=
  foldl (λ s '(category, data), append_items ts category (map_to_list data) s)
        streams cats.

(** The entry a reading adds to a sequence: one if it has a value. *)
Definition new_entries (ts : datetime) (value : option pyval) : list entry :=
  match value with
  | Some v => [Entry ts v]
  | None => []
  end.

(** ** Sample data *)

(** The environmental mapping of the one-reading example:
    [{time_of_day: 12, day_of_week: 3, ambient_light: 0.5, noise_level: 0.2}]
    ([0.2] is the double [0x1.999999999999ap-3]). *)
Definition example_environmental : gmap string pyval :=
  list_to_map
    [ ("time_of_day"%string, 12%float);
      ("day_of_week"%string, 3%float);
      ("ambient_light"%string, 0.5%float);
      ("noise_level"%string, 0x1.999999999999ap-3%float) ].

(** A full reading around it, with [heart_rate: 70]. *)
Definition example_reading : BiometricState :=
  {| timestamp := {| instant := 0; hour := 12; weekday := 3 |};
     physiological :=
       list_to_map
         [ ("heart_rate"%string, 70%float);
           ("hrv_rmssd"%string, 50%float);
           ("gsr"%string, 1.5%float);
           ("temperature"%string, 98.5%float);
           ("respiratory_rate"%string, 16%float) ];
     cognitive :=
       list_to_map
         [ ("attention_level"%string, 0.75%float);
           ("cognitive_load"%string, 0.25%float);
           ("focus_stability"%string, 0.5%float);
           ("executive_function"%string, 0.125%float) ];
     behavioral :=
       list_to_map
         [ ("typing_rhythm"%string, 0.625%float);
           ("stress_indicators"%string, 0.375%float) ];
     environmental := example_environmental |}.

(** The clock reading and the random draws of a sample tick. *)
Definition example_now : datetime := {| instant := 0; hour := 12; weekday := 3 |}.

Definition example_draws : draws :=
  {| normal_0_5 := 1.5; normal_0_10 := (-2.5);
     uniform_gsr := 0.75; normal_0_05 := 0.25; normal_0_2 := (-1);
     uniform_attention := 0.5; uniform_load := 0.25; uniform_focus := 0.75;
     uniform_executive := 0.125; uniform_typing := 0.625;
     uniform_mouse := 0.375; randint_0_5 := 3; uniform_stress := 0.875;
     uniform_light := 0.5; uniform_noise := 0.25 |}.

Definition example_tick (ev : await_event) : tick :=
  {| now := example_now; rng := example_draws; during_sleep := ev |}.

(** A new collector inside its loop, and one whose [sample_rate] was set
    to zero. *)
Definition running : world :=
  {| self := {| telemetry_streams := telemetry_streams __init__;
                collection_active := true;
                sample_rate := 1 |};
     trace := [Print Starting] |}.

Definition stalled : world :=
  {| self := {| telemetry_streams := telemetry_streams __init__;
                collection_active := true;
                sample_rate := 0 |};
     trace := [Print Starting] |}.

(** ** What the encoder reads, what a run leaves *)

(** A reading with nothing in its four mappings. *)
Definition blank (state : BiometricState) : Prop :=
  physiological state = ∅ ∧ cognitive state = ∅
  ∧ behavioral state = ∅ ∧ environmental state = ∅.

(** The keys the encoder looks up, mapping by mapping. *)
Definition physiological_keys : list string :=
  [ "heart_rate"%string; "hrv_rmssd"%string; "gsr"%string;
    "temperature"%string; "respiratory_rate"%string ].
Definition cognitive_keys : list string :=
  [ "attention_level"%string; "cognitive_load"%string;
    "focus_stability"%string; "executive_function"%string ].
Definition behavioral_keys : list string :=
  [ "typing_rhythm"%string; "stress_indicators"%string ].
Definition environmental_keys : list string :=
  [ "time_of_day"%string; "day_of_week"%string;
    "ambient_light"%string; "noise_level"%string ].

(** Two readings hold the same under every key the encoder looks up. *)
Definition same_fields (s1 s2 : BiometricState) : Prop :=
  Forall (λ k, physiological s1 !! k = physiological s2 !! k) physiological_keys
  ∧ Forall (λ k, cognitive s1 !! k = cognitive s2 !! k) cognitive_keys
  ∧ Forall (λ k, behavioral s1 !! k = behavioral s2 !! k) behavioral_keys
  ∧ Forall (λ k, environmental s1 !! k = environmental s2 !! k)
      environmental_keys.

(** The log after the passes of a schedule have been aggregated, one
    sampled reading per tick, in order. *)
Definition aggregate_tick (t : tick)
    (streams : gmap string (gmap string (list entry)))
    : gmap string (gmap string (list entry)) :=
  append_categories (now t)
    (category_data (collect_current_state (now t) (rng t))) streams.

Definition aggregate_ticks (schedule : list tick)
    (streams : gmap string (gmap string (list entry)))
    : gmap string (gmap string (list entry)) :=
  foldl (λ s t, aggregate_tick t s) streams schedule.

(** What one pass of the simulated pipeline prints and waits for, at a
    given [sample_rate]. *)
Definition pass_events (rate : float) (t : tick) : list event :=
  Print (StoredRecord (now t))
  :: (if PrimFloat.is_zero rate
      then [Print (CollectionError ZeroDivisionError); Sleep 1]
      else [Sleep (1 / rate)])
  ++ match during_sleep t with
     | StopRequested => [Print Stopped]
     | _ => []
     end.

(** A schedule during whose waits nothing happens. *)
Definition quiet (schedule : list tick) : Prop :=
  Forall (λ t, during_sleep t = Resumed) schedule.

(** A reading with an extra behavioural key and another timestamp than
    [example_reading], and a log that declares one sampled name. *)
Definition example_reading_later : BiometricState :=
  {| timestamp := {| instant := 60; hour := 13; weekday := 3 |};
     physiological := physiological example_reading;
     cognitive := cognitive example_reading;
     behavioral := <["mouse_dynamics"%string := 0.875%float]>
                     (behavioral example_reading);
     environmental := environmental example_reading |}.

Definition heart_rate_log : world :=
  {| self := {| telemetry_streams :=
                  <["physiological"%string :=
                      <["heart_rate"%string := []]> physiological_streams]>
                    (telemetry_streams __init__);
                collection_active := true;
                sample_rate := 2 |};
     trace := [] |}.

(** A collector whose log has lost every category but the first. *)
Definition physiological_only : world :=
  {| self := {| telemetry_streams :=
                  {[ "physiological"%string := physiological_streams ]};
                collection_active := true;
                sample_rate := 1 |};
     trace := [] |}.

(** A collector whose log was emptied. *)
Definition emptied : world :=
  {| self := {| telemetry_streams := ∅;
                collection_active := true;
                sample_rate := 1 |};
     trace := [] |}.

(** * Properties *)

(** ** Feature encoder *)

Lemma to_float32_zero : to_float32 0 = 0%float.
Proof. reflexivity. Qed.

Lemma length_state_features state : length (state_features state) = 15.
Proof. reflexivity. Qed.

Lemma length_raw_features w : length (raw_features w) = 15 * length w.
Proof.
  unfold raw_features. induction w as [|state w IH]; [done|].
  rewrite fmap_cons, concat_cons, length_app, IH, length_state_features.
  cbn [length]. lia.
Qed.

(** The loop over the window accumulates the readings' features in
    order. *)
Lemma foldl_extend w acc :
  foldl (λ features state, features ++ state_features state) acc w
  = acc ++ raw_features w.
Proof.
  unfold raw_features. revert acc.
  induction w as [|state w IH]; intros acc.
  - by rewrite app_nil_r.
  - cbn [foldl]. rewrite IH, fmap_cons, concat_cons. by rewrite app_assoc.
Qed.

(** Closed form of the encoder, for every window. *)
Lemma create_cognitive_embeddings_closed w :
  create_cognitive_embeddings w
  = (to_float32 <$> take 768 (raw_features w))
      ++ replicate (768 - length (raw_features w)) 0%float.
Proof.
  destruct w as [|state w]; [reflexivity|].
  unfold create_cognitive_embeddings, np_array_float32.
  rewrite foldl_extend, app_nil_l.
  set (raw := raw_features (state :: w)).
  case_decide as Hlen; rewrite length_take in Hlen.
  - rewrite fmap_app, fmap_replicate, to_float32_zero.
    rewrite length_take. do 2 f_equal. lia.
  - replace (768 - length raw) with 0 by lia.
    by rewrite app_nil_r.
Qed.

(** The vector of a non-empty short window is not its raw values
    followed by zeros: the array is of [dtype=np.float32], and the last
    value of [example_reading], the double [0.2], is stored as the
    float32 nearest to it. *)
Lemma create_cognitive_embeddings_not_raw :
  create_cognitive_embeddings [example_reading]
  ≠ raw_features [example_reading]
      ++ replicate (768 - length (raw_features [example_reading])) 0%float.
Proof.
  intros Heq.
  apply (f_equal (λ l, Prim2SF <$> l !! 14)) in Heq.
  vm_compute in Heq. discriminate Heq.
Qed.

(** C1, as the code has it. For a non-empty window the encoder returns
    the readings' features concatenated in window order, each rounded to
    float32 as the array's [dtype] prescribes: the first 768 of them
    when more than 768 were produced, and all of them followed by exact
    zeros up to index 768 when fewer were produced. *)
Theorem create_cognitive_embeddings_truncates_or_pads
    (telemetry_window : list BiometricState) :
  telemetry_window ≠ [] →
  let raw := raw_features telemetry_window in
  (768 < length raw →
     create_cognitive_embeddings telemetry_window
     = to_float32 <$> take 768 raw)
  ∧ (length raw < 768 →
     create_cognitive_embeddings telemetry_window
     = (to_float32 <$> raw) ++ replicate (768 - length raw) 0%float).
Proof.
  intros _ raw. subst raw.
  rewrite create_cognitive_embeddings_closed. split; intros Hlen.
  - replace (768 - length (raw_features telemetry_window)) with 0 by lia.
    by rewrite app_nil_r.
  - by rewrite take_ge by lia.
Qed.

Lemma create_cognitive_embeddings_truncates_or_pads_witness :
  create_cognitive_embeddings (replicate 52 example_reading)
  = to_float32 <$> take 768 (raw_features (replicate 52 example_reading))
  ∧ create_cognitive_embeddings [example_reading]
    = (to_float32 <$> raw_features [example_reading])
        ++ replicate (768 - length (raw_features [example_reading])) 0%float.
Proof.
  split.
  - assert (replicate 52 example_reading ≠ []) as Hwindow by discriminate.
    apply (proj1 (create_cognitive_embeddings_truncates_or_pads
                    (replicate 52 example_reading) Hwindow)).
    rewrite length_raw_features, length_replicate. lia.
  - assert ([example_reading] ≠ []) as Hwindow by discriminate.
    apply (proj2 (create_cognitive_embeddings_truncates_or_pads
                    [example_reading] Hwindow)).
    rewrite length_raw_features. cbn [length]. lia.
Defined.

(** C2. For the empty window the encoder returns 768 zeros. *)
Theorem create_cognitive_embeddings_empty :
  create_cognitive_embeddings [] = replicate 768 0%float
  ∧ length (create_cognitive_embeddings []) = 768
  ∧ Forall (λ x, x = 0%float) (create_cognitive_embeddings []).
Proof.
  split; [reflexivity|]. split.
  - unfold create_cognitive_embeddings, np_zeros. apply length_replicate.
  - unfold create_cognitive_embeddings, np_zeros.
    apply Forall_forall. intros x Hx.
    by apply elem_of_replicate in Hx as [-> _].
Qed.

(** C3. Whatever the window and its length, the encoder returns exactly
    768 entries. *)
Theorem create_cognitive_embeddings_length
    (telemetry_window : list BiometricState) :
  length (create_cognitive_embeddings telemetry_window) = 768.
Proof.
  rewrite create_cognitive_embeddings_closed.
  rewrite length_app, length_fmap, length_take, length_replicate. lia.
Qed.

(** Where a reading's features sit among the raw values. *)
Lemma raw_features_block w i state :
  w !! i = Some state →
  take 15 (drop (15 * i) (raw_features w)) = state_features state.
Proof.
  unfold raw_features. revert i.
  induction w as [|state' w IH]; intros i Hi; [done|].
  rewrite fmap_cons, concat_cons.
  destruct i as [|i].
  - injection Hi as ->. replace (15 * 0) with 0 by lia.
    rewrite drop_0, take_app_length'; [done|by rewrite length_state_features].
  - replace (15 * S i) with (length (state_features state') + 15 * i)
      by (rewrite length_state_features; lia).
    rewrite drop_app_add'; [|done]. by apply IH.
Qed.

Lemma create_cognitive_embeddings_block w i state :
  w !! i = Some state →
  15 * i + 15 ≤ 768 →
  take 15 (drop (15 * i) (create_cognitive_embeddings w))
  = to_float32 <$> state_features state.
Proof.
  intros Hi Hfit.
  assert (i < length w) as Hlt by (by eapply lookup_lt_Some).
  rewrite create_cognitive_embeddings_closed, take_drop_commute.
  rewrite take_app_le
    by (rewrite length_fmap, length_take, length_raw_features; lia).
  rewrite <- fmap_take, take_take.
  replace ((15 * i + 15) `min` 768) with (15 * i + 15) by lia.
  rewrite <- fmap_drop, <- take_drop_commute.
  by rewrite (raw_features_block w i state).
Qed.

(** The first fifteen entries for [example_reading] are not the values
    of the reading themselves: [3/7] and [0.2] are not float32 numbers,
    and the array stores their roundings. *)
Lemma create_cognitive_embeddings_example_rounded :
  take 15 (create_cognitive_embeddings [example_reading])
  ≠ [ 70%float; 50%float; 1.5%float; 98.5%float; 16%float;
      0.75%float; 0.25%float; 0.5%float; 0.125%float;
      0.625%float; 0.375%float;
      (12 / 24)%float; (3 / 7)%float; 0.5%float; 0x1.999999999999ap-3%float ].
Proof.
  intros Heq.
  apply (f_equal (λ l, Prim2SF <$> l !! 12)) in Heq.
  vm_compute in Heq. discriminate Heq.
Qed.

(** C4, as the code has it. Every reading contributes fifteen numbers in
    a fixed order: the five physiological fields, the four cognitive
    ones, the two behavioural ones, then time of day over 24, day of
    week over 7, ambient light and noise level; rounded to float32 they
    occupy entries [15 i .. 15 i + 14] of the vector for the [i]-th
    reading of the window, while they fit.  For the one-reading example
    window the vector is the float32 roundings of the eleven
    physiological, cognitive and behavioural values and of
    [12/24, 3/7, 0.5, 0.2], then zeros from entry 15 to entry 767. *)
Theorem create_cognitive_embeddings_layout :
  (∀ state, length (state_features state) = 15)
  ∧ (∀ telemetry_window i state,
       telemetry_window !! i = Some state →
       15 * i + 15 ≤ 768 →
       take 15 (drop (15 * i) (create_cognitive_embeddings telemetry_window))
       = to_float32 <$>
           [ dict_get (physiological state) "heart_rate" 0;
             dict_get (physiological state) "hrv_rmssd" 0;
             dict_get (physiological state) "gsr" 0;
             dict_get (physiological state) "temperature" 0;
             dict_get (physiological state) "respiratory_rate" 0;
             dict_get (cognitive state) "attention_level" 0;
             dict_get (cognitive state) "cognitive_load" 0;
             dict_get (cognitive state) "focus_stability" 0;
             dict_get (cognitive state) "executive_function" 0;
             dict_get (behavioral state) "typing_rhythm" 0;
             dict_get (behavioral state) "stress_indicators" 0;
             (dict_get (environmental state) "time_of_day" 0 / 24)%float;
             (dict_get (environmental state) "day_of_week" 0 / 7)%float;
             dict_get (environmental state) "ambient_light" 0;
             dict_get (environmental state) "noise_level" 0 ])
  ∧ (∀ T phys cog behav,
       create_cognitive_embeddings
         [ {| timestamp := T; physiological := phys; cognitive := cog;
              behavioral := behav; environmental := example_environmental |} ]
       = (to_float32 <$>
            [ dict_get phys "heart_rate" 0;
              dict_get phys "hrv_rmssd" 0;
              dict_get phys "gsr" 0;
              dict_get phys "temperature" 0;
              dict_get phys "respiratory_rate" 0;
              dict_get cog "attention_level" 0;
              dict_get cog "cognitive_load" 0;
              dict_get cog "focus_stability" 0;
              dict_get cog "executive_function" 0;
              dict_get behav "typing_rhythm" 0;
              dict_get behav "stress_indicators" 0;
              (12 / 24)%float;
              (3 / 7)%float;
              0.5%float;
              0x1.999999999999ap-3%float ])
         ++ replicate 753 0%float).
Proof.
  split; [apply length_state_features|]. split.
  - intros telemetry_window i state Hstate Hfit.
    by rewrite (create_cognitive_embeddings_block telemetry_window i state).
  - intros T phys cog behav.
    rewrite create_cognitive_embeddings_closed.
    unfold raw_features. rewrite fmap_cons, fmap_nil, concat_cons, concat_nil.
    rewrite app_nil_r, length_state_features.
    rewrite take_ge by (rewrite length_state_features; lia).
    replace (768 - 15) with 753 by lia.
    reflexivity.
Qed.

Lemma create_cognitive_embeddings_layout_witness :
  take 15 (drop (15 * 0) (create_cognitive_embeddings [example_reading]))
  = to_float32 <$>
      [ 70%float; 50%float; 1.5%float; 98.5%float; 16%float;
        0.75%float; 0.25%float; 0.5%float; 0.125%float;
        0.625%float; 0.375%float;
        (12 / 24)%float; (3 / 7)%float; 0.5%float; 0x1.999999999999ap-3%float ].
Proof.
  apply (proj1 (proj2 create_cognitive_embeddings_layout)
           [example_reading] 0 example_reading); [reflexivity|lia].
Defined.

(** Entries of the vector, read through the block of their reading. *)
Lemma create_cognitive_embeddings_entry w i state k :
  w !! i = Some state →
  15 * i + 15 ≤ 768 →
  k < 15 →
  create_cognitive_embeddings w !! (15 * i + k)
  = to_float32 <$> state_features state !! k.
Proof.
  intros Hi Hfit Hk.
  rewrite <- list_lookup_fmap, <- (create_cognitive_embeddings_block w i state)
    by done.
  by rewrite lookup_take_lt, lookup_drop.
Qed.

(** All twenty-four hours and all seven weekdays, by evaluation. *)
Lemma hours_encoded_in_unit_interval :
  forallb (λ h, in_unit_interval (to_float32 (float_of_int h / 24))) (seqZ 0 24)
  = true.
Proof. vm_compute. reflexivity. Qed.

Lemma weekdays_encoded_in_unit_interval :
  forallb (λ d, in_unit_interval (to_float32 (float_of_int d / 7))) (seqZ 0 7)
  = true.
Proof. vm_compute. reflexivity. Qed.

Lemma forallb_seqZ (P : Z → bool) (m len n : Z) :
  forallb P (seqZ m len) = true → (m ≤ n < m + len)%Z → P n = true.
Proof.
  intros Hall Hn. rewrite forallb_forall in Hall.
  apply Hall, list_elem_of_In, elem_of_seqZ. lia.
Qed.

(** C5. When a reading's [time_of_day] is an hour [0..23] and its
    [day_of_week] a weekday [0..6], the two entries encoded from them
    ([time_of_day / 24] and [day_of_week / 7], at offsets 11 and 12 of the
    reading's block) lie in [[0, 1]]. *)
Theorem encoded_time_fields_in_unit_interval
    (telemetry_window : list BiometricState) (i : nat) (state : BiometricState)
    (h d : Z) :
  telemetry_window !! i = Some state →
  15 * i + 15 ≤ 768 →
  environmental state !! "time_of_day"%string = Some (float_of_int h) →
  (0 ≤ h ≤ 23)%Z →
  environmental state !! "day_of_week"%string = Some (float_of_int d) →
  (0 ≤ d ≤ 6)%Z →
  ∃ x y,
    create_cognitive_embeddings telemetry_window !! (15 * i + 11) = Some x
    ∧ create_cognitive_embeddings telemetry_window !! (15 * i + 12) = Some y
    ∧ x = to_float32 (float_of_int h / 24)
    ∧ y = to_float32 (float_of_int d / 7)
    ∧ ((0 <=? x)%float = true ∧ (x <=? 1)%float = true)
    ∧ ((0 <=? y)%float = true ∧ (y <=? 1)%float = true).
Proof.
  intros Hi Hfit Hhour Hh Hday Hd.
  exists (to_float32 (float_of_int h / 24)), (to_float32 (float_of_int d / 7)).
  rewrite !(create_cognitive_embeddings_entry _ i state) by (done || lia).
  unfold state_features, phys_features, cog_features, behav_features,
    env_features, dict_get.
  rewrite Hhour, Hday.
  repeat split; try reflexivity.
  - pose proof (forallb_seqZ _ 0 24 h hours_encoded_in_unit_interval) as H.
    cbv beta in H. unfold in_unit_interval in H.
    apply andb_true_iff in H as [H _]; [done|lia].
  - pose proof (forallb_seqZ _ 0 24 h hours_encoded_in_unit_interval) as H.
    cbv beta in H. unfold in_unit_interval in H.
    apply andb_true_iff in H as [_ H]; [done|lia].
  - pose proof (forallb_seqZ _ 0 7 d weekdays_encoded_in_unit_interval) as H.
    cbv beta in H. unfold in_unit_interval in H.
    apply andb_true_iff in H as [H _]; [done|lia].
  - pose proof (forallb_seqZ _ 0 7 d weekdays_encoded_in_unit_interval) as H.
    cbv beta in H. unfold in_unit_interval in H.
    apply andb_true_iff in H as [_ H]; [done|lia].
Qed.

Lemma encoded_time_fields_in_unit_interval_witness :
  ∃ x y,
    create_cognitive_embeddings [example_reading] !! (15 * 0 + 11) = Some x
    ∧ create_cognitive_embeddings [example_reading] !! (15 * 0 + 12) = Some y
    ∧ x = to_float32 (float_of_int 12 / 24)
    ∧ y = to_float32 (float_of_int 3 / 7)
    ∧ ((0 <=? x)%float = true ∧ (x <=? 1)%float = true)
    ∧ ((0 <=? y)%float = true ∧ (y <=? 1)%float = true).
Proof.
  apply (encoded_time_fields_in_unit_interval
           [example_reading] 0 example_reading 12 3);
    [reflexivity | lia | reflexivity | lia | reflexivity | lia].
Defined.

(** ** Aggregator *)

Lemma with_streams_same w : with_streams w (telemetry_streams (self w)) = w.
Proof. by destruct w as [[] ?]. Qed.

Lemma with_streams_twice w s1 s2 :
  with_streams (with_streams w s1) s2 = with_streams w s2.
Proof. reflexivity. Qed.

(** One guarded append is an [alter] of the nested mapping. *)
Lemma append_if_declared_alter category key e w :
  is_Some (telemetry_streams (self w) !! category) →
  append_if_declared category key e w
  = (with_streams w
       (alter (alter (λ log, log ++ [e]) key) category
          (telemetry_streams (self w))),
     Ok tt).
Proof.
  intros [stream Hstream].
  unfold append_if_declared, bind, get_self. rewrite Hstream.
  destruct (stream !! key) as [log|] eqn:Hkey.
  - unfold put_self, with_streams. do 3 f_equal.
    apply map_eq; intros c.
    rewrite lookup_alter, lookup_insert.
    case_decide as Hc; [subst c; rewrite Hstream; cbn|done].
    f_equal. apply map_eq; intros k.
    rewrite lookup_alter, lookup_insert.
    case_decide as Hk; [subst k; by rewrite Hkey|done].
  - unfold ret. rewrite alter_id; [by rewrite with_streams_same|].
    intros stream' Hstream'. apply alter_id. intros log Hlog. congruence.
Qed.

Lemma append_items_present ts category items streams c :
  is_Some (append_items ts category items streams !! c)
  ↔ is_Some (streams !! c).
Proof.
  unfold append_items. revert streams.
  induction items as [|[key value] items IH]; intros streams; [done|].
  cbn [foldl]. rewrite IH, lookup_alter.
  case_decide; [subst c; apply fmap_is_Some|done].
Qed.

Lemma append_categories_present ts cats streams c :
  is_Some (append_categories ts cats streams !! c) ↔ is_Some (streams !! c).
Proof.
  unfold append_categories. revert streams.
  induction cats as [|[category data] cats IH]; intros streams; [done|].
  cbn [foldl]. by rewrite IH, append_items_present.
Qed.

(** The inner loop, when the category is in the log. *)
Lemma for_each_items ts category items w :
  is_Some (telemetry_streams (self w) !! category) →
  for_each items
    (λ '(key, value),
       append_if_declared category key
         {| entry_timestamp := ts; entry_value := value |}) w
  = (with_streams w
       (append_items ts category items (telemetry_streams (self w))),
     Ok tt).
Proof.
  revert w. induction items as [|[key value] items IH]; intros w Hc.
  - cbn. by rewrite with_streams_same.
  - cbn [for_each]. unfold bind at 1.
    rewrite append_if_declared_alter by done.
    rewrite IH.
    + by rewrite with_streams_twice.
    + cbn. rewrite lookup_alter_eq. by apply fmap_is_Some.
Qed.

(** The outer loop, when every category it meets is in the log. *)
Lemma for_each_categories ts cats w :
  Forall (λ c, is_Some (telemetry_streams (self w) !! c)) cats.*1 →
  for_each cats
    (λ '(category, data),
       for_each (map_to_list data)
         (λ '(key, value),
            append_if_declared category key
              {| entry_timestamp := ts; entry_value := value |})) w
  = (with_streams w (append_categories ts cats (telemetry_streams (self w))),
     Ok tt).
Proof.
  revert w. induction cats as [|[category data] cats IH]; intros w Hcats.
  - cbn. by rewrite with_streams_same.
  - rewrite fmap_cons in Hcats. apply Forall_cons in Hcats as [Hc Hcats].
    cbn [for_each]. unfold bind at 1.
    rewrite for_each_items by done.
    rewrite IH.
    + by rewrite with_streams_twice.
    + cbn. eapply Forall_impl; [exact Hcats|].
      intros c Hc'. by apply append_items_present.
Qed.

Lemma fmap_app_nil (o : option (list entry)) : (λ log, log ++ []) <$> o = o.
Proof. destruct o as [log|]; [cbn; by rewrite app_nil_r|done]. Qed.

Lemma log_of_alter (f : list entry → list entry) streams category key c k :
  log_of (alter (alter f key) category streams) c k
  = if decide (c = category ∧ k = key)
    then f <$> log_of streams category key
    else log_of streams c k.
Proof.
  unfold log_of. rewrite lookup_alter.
  destruct (decide (category = c)) as [->|Hc].
  - destruct (streams !! c) as [stream|]; cbn.
    + rewrite lookup_alter.
      destruct (decide (key = k)) as [->|Hk].
      * by rewrite decide_True.
      * rewrite decide_False; [done|]. intros [_ ?]. by apply Hk.
    + by case_decide.
  - rewrite decide_False; [done|]. intros [? _]. by apply Hc.
Qed.

(** The log after the inner loop, sequence by sequence. *)
Lemma log_of_append_items ts category items streams c k :
  NoDup items.*1 →
  log_of (append_items ts category items streams) c k
  = if decide (c = category)
    then (λ log, log ++ new_entries ts
                   ((list_to_map items : gmap string pyval) !! k))
           <$> log_of streams category k
    else log_of streams c k.
Proof.
  unfold append_items. revert streams.
  induction items as [|[key value] items IH]; intros streams Hnodup.
  - cbn [foldl]. rewrite list_to_map_nil, lookup_empty. cbn [new_entries].
    rewrite fmap_app_nil. by case_decide; subst.
  - rewrite fmap_cons in Hnodup. apply NoDup_cons in Hnodup as [Hfresh Hnodup].
    cbn [foldl]. rewrite IH by done. rewrite !log_of_alter.
    rewrite list_to_map_cons.
    destruct (decide (c = category)) as [->|Hc].
    + destruct (decide (k = key)) as [->|Hk].
      * rewrite decide_True by done. rewrite lookup_insert_eq.
        cbn [fst] in Hfresh.
        apply not_elem_of_list_to_map_1 in Hfresh. rewrite Hfresh.
        cbn [new_entries]. by rewrite fmap_app_nil.
      * rewrite decide_False by (by intros [_ ?]).
        by rewrite lookup_insert_ne.
    + rewrite decide_False; [done|]. by intros [? _].
Qed.

(** The log after both loops. *)
Lemma log_of_append_categories ts cats streams c k :
  NoDup cats.*1 →
  log_of (append_categories ts cats streams) c k
  = (λ log, log ++ new_entries ts
              ((list_to_map cats : gmap string (gmap string pyval)) !! c
                 ≫= λ data, data !! k))
      <$> log_of streams c k.
Proof.
  unfold append_categories. revert streams.
  induction cats as [|[category data] cats IH]; intros streams Hnodup.
  - cbn [foldl]. rewrite list_to_map_nil, lookup_empty. cbn.
    by rewrite fmap_app_nil.
  - rewrite fmap_cons in Hnodup. apply NoDup_cons in Hnodup as [Hfresh Hnodup].
    cbn [foldl]. rewrite IH by done.
    rewrite log_of_append_items by apply NoDup_fst_map_to_list.
    rewrite list_to_map_to_list, list_to_map_cons.
    destruct (decide (c = category)) as [->|Hc].
    + rewrite lookup_insert_eq.
      cbn [fst] in Hfresh.
      apply not_elem_of_list_to_map_1 in Hfresh. rewrite Hfresh. cbn.
      by rewrite fmap_app_nil.
    + by rewrite lookup_insert_ne.
Qed.

Lemma has_categories_Forall state streams :
  has_categories streams = true →
  Forall (λ c, is_Some (streams !! c)) (category_data state).*1.
Proof.
  unfold has_categories. cbn [forallb].
  rewrite !andb_true_iff, !bool_decide_eq_true. intros (?&?&?&?&_).
  cbn. by repeat constructor.
Qed.

Lemma NoDup_category_data state : NoDup (category_data state).*1.
Proof. cbn. apply (bool_decide_unpack _). reflexivity. Qed.

(** The aggregating loop of [process_and_store], in closed form. *)
Lemma store_in_streams_closed state w :
  has_categories (telemetry_streams (self w)) = true →
  store_in_streams state w
  = (with_streams w
       (append_categories (timestamp state) (category_data state)
          (telemetry_streams (self w))),
     Ok tt).
Proof.
  intros Hcats. unfold store_in_streams.
  apply for_each_categories. by apply has_categories_Forall.
Qed.

(** [process_and_store] with the printing stub, in closed form. *)
Lemma process_and_store_effect (state : BiometricState) (w : world) :
  has_categories (telemetry_streams (self w)) = true →
  nexis_process_and_store state w
  = ({| self :=
          self (with_streams w
                  (append_categories (timestamp state) (category_data state)
                     (telemetry_streams (self w))));
        trace := trace w ++ [Print (StoredRecord (timestamp state))] |},
     Ok tt).
Proof.
  intros Hcats. unfold nexis_process_and_store, process_and_store.
  unfold bind at 1. by rewrite store_in_streams_closed.
Qed.

(** What the aggregator's list pairs with a category is the mapping
    that belongs under it. *)
Lemma category_data_mapping_under state category key :
  (list_to_map (category_data state) : gmap string (gmap string pyval))
    !! category ≫= (λ data, data !! key)
  = mapping_under state category !! key.
Proof.
  unfold category_data, mapping_under.
  rewrite !list_to_map_cons, list_to_map_nil.
  repeat (rewrite lookup_insert;
          destruct (decide (_ = category)) as [<-|?];
          [reflexivity|];
          rewrite decide_False by (intros ->; congruence)).
  by rewrite !lookup_empty.
Qed.

(** C6. [process_and_store] appends [(timestamp, value)] to the sequence
    of a category and metric name exactly when the reading carries a
    value under that name in the mapping that belongs under the category
    and the name is one the log declares for the category; values under
    other names are dropped without an error, no name and no category is
    added or removed, and nothing else of the collector changes (the
    stub prints its line). *)
Theorem process_and_store_appends_declared
    (state : BiometricState) (w : world) :
  has_categories (telemetry_streams (self w)) = true →
  ∃ w',
    nexis_process_and_store state w = (w', Ok tt)
    ∧ (∀ category key,
         log_of (telemetry_streams (self w')) category key
         = (λ log, log ++ new_entries (timestamp state)
                            (mapping_under state category !! key))
             <$> log_of (telemetry_streams (self w)) category key)
    ∧ (∀ category,
         is_Some (telemetry_streams (self w') !! category)
         ↔ is_Some (telemetry_streams (self w) !! category))
    ∧ collection_active (self w') = collection_active (self w)
    ∧ sample_rate (self w') = sample_rate (self w)
    ∧ trace w' = trace w ++ [Print (StoredRecord (timestamp state))].
Proof.
  intros Hcats. eexists. split; [by apply process_and_store_effect|].
  cbn [self trace with_streams telemetry_streams collection_active sample_rate].
  split; [|split; [|done]].
  - intros category key.
    rewrite log_of_append_categories by apply NoDup_category_data.
    by rewrite category_data_mapping_under.
  - intros category. apply append_categories_present.
Qed.

(** On a log that declares [heart_rate], the example reading's heart
    rate is appended with its timestamp, its [hrv_rmssd], which the log
    does not declare, is dropped, and a declared name the reading lacks
    keeps its sequence. *)
Lemma process_and_store_appends_declared_witness :
  ∃ w',
    nexis_process_and_store example_reading heart_rate_log = (w', Ok tt)
    ∧ log_of (telemetry_streams (self w')) "physiological" "heart_rate"
      = Some [ {| entry_timestamp := timestamp example_reading;
                  entry_value := 70 |} ]
    ∧ log_of (telemetry_streams (self w')) "physiological" "hrv_rmssd" = None
    ∧ log_of (telemetry_streams (self w')) "physiological"
        "heart_rate_variability" = Some []
    ∧ trace w'
      = trace heart_rate_log
          ++ [Print (StoredRecord (timestamp example_reading))].
Proof.
  destruct (process_and_store_appends_declared example_reading heart_rate_log
              eq_refl)
    as (w' & Heq & Hlogs & _ & _ & _ & Htrace).
  exists w'. rewrite !Hlogs.
  split; [exact Heq|]. split; [reflexivity|]. split; [reflexivity|].
  split; [reflexivity|exact Htrace].
Defined.

(** ** The simulated pipeline never logs *)

(** Splits a lookup in a mapping written out key by key into its cases:
    the key is one of those listed, or the lookup fails. *)
Ltac lookup_cases H :=
  rewrite ?list_to_map_cons, ?list_to_map_nil in H;
  repeat (rewrite lookup_insert in H;
          match type of H with
          | context [decide (?a = ?b)] =>
              destruct (decide (a = b)) as [<-|?]
          end;
          [injection H as <-|]);
  try (rewrite lookup_empty in H; discriminate H).

(** None of the names the sampler fills in is declared in a fresh log. *)
Lemma sampled_names_undeclared now r category key :
  is_Some (value_of (collect_current_state now r) category key) →
  log_of (telemetry_streams __init__) category key = None.
Proof.
  intros [v Hv]. unfold value_of in Hv.
  destruct (_ !! category) as [data|] eqn:Hdata; [|done].
  change (data !! key = Some v) in Hv.
  unfold category_data in Hdata.
  lookup_cases Hdata;
    unfold collect_current_state in Hv;
    cbn [physiological cognitive behavioral environmental] in Hv;
    lookup_cases Hv; reflexivity.
Qed.

(** Every sequence of a fresh log is empty. *)
Lemma fresh_log_empty category key log :
  log_of (telemetry_streams __init__) category key = Some log → log = [].
Proof.
  unfold log_of. intros Hlog.
  destruct (_ !! category) as [stream|] eqn:Hstream; [|done].
  change (stream !! key = Some log) in Hlog.
  cbn [telemetry_streams __init__] in Hstream.
  lookup_cases Hstream;
    unfold physiological_streams, cognitive_state_streams,
      behavioral_patterns_streams, environmental_context_streams in Hlog;
    lookup_cases Hlog; reflexivity.
Qed.

(** Two logs with the same categories and the same sequences are equal. *)
Lemma streams_eq (s1 s2 : gmap string (gmap string (list entry))) :
  (∀ c, is_Some (s1 !! c) ↔ is_Some (s2 !! c)) →
  (∀ c k, log_of s1 c k = log_of s2 c k) →
  s1 = s2.
Proof.
  intros Hcats Hlogs. apply map_eq; intros c.
  specialize (Hcats c). pose proof (Hlogs c) as Hc. unfold log_of in Hc.
  destruct (s1 !! c) as [m1|], (s2 !! c) as [m2|].
  - f_equal. apply map_eq, Hc.
  - destruct Hcats as [Hcats _]. by destruct Hcats.
  - destruct Hcats as [_ Hcats]. by destruct Hcats.
  - done.
Qed.

Lemma process_and_store_sampled now r w :
  telemetry_streams (self w) = telemetry_streams __init__ →
  nexis_process_and_store (collect_current_state now r) w
  = ({| self := self w; trace := trace w ++ [Print (StoredRecord now)] |},
     Ok tt).
Proof.
  intros Hinit.
  rewrite process_and_store_effect by (by rewrite Hinit).
  set (state := collect_current_state now r).
  assert (append_categories (timestamp state) (category_data state)
            (telemetry_streams (self w))
          = telemetry_streams (self w)) as ->.
  { apply streams_eq; [apply append_categories_present|]. intros c k.
    rewrite log_of_append_categories by apply NoDup_category_data.
    rewrite Hinit.
    destruct (log_of (telemetry_streams __init__) c k) as [log|] eqn:Hlog;
      [|done].
    destruct (_ ≫= _) as [v|] eqn:Hv.
    - assert (log_of (telemetry_streams __init__) c k = None) as Hnone.
      { apply (sampled_names_undeclared now r). unfold value_of.
        fold state. by rewrite Hv. }
      congruence.
    - cbn. by rewrite app_nil_r. }
  by rewrite with_streams_same.
Qed.

(** ** The loop *)

Lemma bind_unfold {A B} (m : M A) (k : A → M B) w :
  bind m k w
  = match m w with
    | (w', Ok a) => k a w'
    | (w', Raise e) => (w', Raise e)
    end.
Proof. reflexivity. Qed.

(** The three ways a wait ends. *)
Lemma asyncio_sleep_cases ev seconds w :
  asyncio_sleep ev seconds w
  = match ev with
    | Resumed =>
        ({| self := self w; trace := trace w ++ [Sleep seconds] |}, Ok tt)
    | StopRequested =>
        ({| self := {| telemetry_streams := telemetry_streams (self w);
                       collection_active := false;
                       sample_rate := sample_rate (self w) |};
            trace := (trace w ++ [Sleep seconds]) ++ [Print Stopped] |},
         Ok tt)
    | Cancelled =>
        ({| self := self w; trace := trace w ++ [Sleep seconds] |},
         Raise CancelledError)
    end.
Proof. by destruct ev. Qed.

Lemma asyncio_sleep_streams ev seconds w :
  telemetry_streams (self (asyncio_sleep ev seconds w).1)
  = telemetry_streams (self w).
Proof. rewrite asyncio_sleep_cases. by destruct ev. Qed.

(** A wait raises nothing that [except Exception] would catch. *)
Lemma asyncio_sleep_raises ev seconds w w' e :
  asyncio_sleep ev seconds w = (w', Raise e) → is_Exception e = false.
Proof.
  rewrite asyncio_sleep_cases. destruct ev; intros Heq; try done.
  by injection Heq as _ <-.
Qed.

(** A pass of the simulated pipeline over a log that declares what a
    fresh one does. *)
Lemma nexis_iteration_sampled t w :
  telemetry_streams (self w) = telemetry_streams __init__ →
  nexis_iteration t w
  = let w1 := {| self := self w;
                 trace := trace w ++ [Print (StoredRecord (now t))] |} in
    if PrimFloat.is_zero (sample_rate (self w))
    then asyncio_sleep (during_sleep t) 1
           {| self := self w;
              trace := trace w1 ++ [Print (CollectionError ZeroDivisionError)] |}
    else asyncio_sleep (during_sleep t) (1 / sample_rate (self w)) w1.
Proof.
  intros Hinit.
  unfold nexis_iteration, iteration, try_except, try_suite, simulated_sensors.
  rewrite bind_unfold. unfold ret at 1.
  change (process_and_store _store_training_data) with nexis_process_and_store.
  rewrite bind_unfold, process_and_store_sampled by done.
  rewrite bind_unfold. unfold get_self at 1. cbn [self].
  rewrite bind_unfold. unfold py_truediv.
  destruct (PrimFloat.is_zero (sample_rate (self w))).
  - reflexivity.
  - unfold ret at 1. cbv zeta.
    rewrite asyncio_sleep_cases. by destruct (during_sleep t).
Qed.

Lemma nexis_iteration_streams t w :
  telemetry_streams (self w) = telemetry_streams __init__ →
  telemetry_streams (self (nexis_iteration t w).1) = telemetry_streams __init__.
Proof.
  intros Hinit. rewrite nexis_iteration_sampled by done. cbv zeta.
  destruct (PrimFloat.is_zero _); by rewrite asyncio_sleep_streams.
Qed.

Lemma nexis_while_streams schedule w :
  telemetry_streams (self w) = telemetry_streams __init__ →
  telemetry_streams
    (self (while_collection_active simulated_sensors _store_training_data
             schedule w).1.1)
  = telemetry_streams __init__.
Proof.
  revert w. induction schedule as [|t schedule IH]; intros w Hinit.
  - cbn. by destruct (collection_active (self w)).
  - cbn [while_collection_active].
    destruct (collection_active (self w)); [|done].
    pose proof (nexis_iteration_streams t w Hinit) as Hnext.
    unfold nexis_iteration in Hnext.
    destruct (iteration _ _ t w) as [w' [[]|e]]; [by apply IH|done].
Qed.

(** C7. None of the metric names the sampler fills in is declared in the
    log a new collector starts with; so [process_and_store] leaves
    [telemetry_streams] as it was for every reading of
    [collect_current_state], and after any run of the loop from a new
    collector the log is still the initial one, every sequence empty. *)
Theorem sampled_readings_never_logged :
  (∀ now r category key,
     is_Some (value_of (collect_current_state now r) category key) →
     log_of (telemetry_streams __init__) category key = None)
  ∧ (∀ now r w,
       telemetry_streams (self w) = telemetry_streams __init__ →
       ∃ w',
         nexis_process_and_store (collect_current_state now r) w = (w', Ok tt)
         ∧ telemetry_streams (self w') = telemetry_streams (self w))
  ∧ (∀ schedule,
       let w' := (nexis_collection schedule fresh).1.1 in
       telemetry_streams (self w') = telemetry_streams __init__
       ∧ ∀ category key log,
           log_of (telemetry_streams (self w')) category key = Some log →
           log = []).
Proof.
  split; [apply sampled_names_undeclared|]. split.
  - intros now r w Hinit. eexists. split.
    + by apply process_and_store_sampled.
    + reflexivity.
  - intros schedule w'.
    assert (telemetry_streams (self w') = telemetry_streams __init__) as Hw'.
    { subst w'. unfold nexis_collection, start_continuous_collection.
      by apply nexis_while_streams. }
    split; [done|]. intros category key log. rewrite Hw'.
    apply fresh_log_empty.
Qed.

Lemma sampled_readings_never_logged_witness :
  log_of (telemetry_streams __init__) "physiological" "heart_rate" = None
  ∧ ∃ w',
      nexis_process_and_store (collect_current_state example_now example_draws)
        fresh = (w', Ok tt)
      ∧ telemetry_streams (self w') = telemetry_streams (self fresh).
Proof.
  split.
  - apply (proj1 sampled_readings_never_logged example_now example_draws
             "physiological" "heart_rate").
    eexists. reflexivity.
  - apply (proj1 (proj2 sampled_readings_never_logged)
             example_now example_draws fresh).
    reflexivity.
Defined.

(** C8. The recent-window selector returns the empty list whatever its
    argument and the collector, so [process_and_store] always encodes the
    empty window and hands the persistence call, whatever it is, 768
    zeros. *)
Theorem process_and_store_persists_zero_vector :
  (∀ c window_minutes, _get_recent_states c window_minutes = [])
  ∧ (∀ c window_minutes,
       create_cognitive_embeddings (_get_recent_states c window_minutes)
       = replicate 768 0%float)
  ∧ (∀ persist state w,
       process_and_store persist state w
       = (do _ <- store_in_streams state;
          persist state (replicate 768 0%float)) w)
  ∧ (∀ state w,
       nexis_process_and_store state w
       = (do _ <- store_in_streams state;
          _store_training_data state (replicate 768 0%float)) w).
Proof.
  split; [reflexivity|]. split; [reflexivity|].
  assert (∀ persist state w,
            process_and_store persist state w
            = (do _ <- store_in_streams state;
               persist state (replicate 768 0%float)) w) as Hzero.
  { intros persist state w. unfold process_and_store.
    rewrite !bind_unfold. by destruct (store_in_streams state w) as [w' [[]|e]]. }
  split; [exact Hzero|]. intros state w. apply Hzero.
Qed.

(** Whatever leaves a pass of the loop is not an [Exception]. *)
Lemma iteration_raises sample persist t w w' e :
  iteration sample persist t w = (w', Raise e) → is_Exception e = false.
Proof.
  unfold iteration, try_except.
  destruct (try_suite sample persist t w) as [w1 [[]|e1]]; [done|].
  destruct (is_Exception e1) eqn:Hcaught.
  - unfold except_suite. rewrite bind_unfold. cbn [print emit].
    apply asyncio_sleep_raises.
  - intros Heq. by injection Heq as _ <-.
Qed.

(** A pass that completes ends in a wait that completed. *)
Lemma iteration_ends_in_sleep sample persist t w w' :
  iteration sample persist t w = (w', Ok tt) →
  ∃ w0 seconds, asyncio_sleep (during_sleep t) seconds w0 = (w', Ok tt).
Proof.
  unfold iteration, try_except.
  destruct (try_suite sample persist t w) as [w1 [[]|e1]] eqn:Htry.
  - intros Heq. injection Heq as <-.
    unfold try_suite in Htry. rewrite bind_unfold in Htry.
    destruct (sample t w) as [wa [state|ea]]; [|done].
    rewrite bind_unfold in Htry.
    destruct (process_and_store persist state wa) as [wb [[]|eb]]; [|done].
    rewrite bind_unfold in Htry. unfold get_self at 1 in Htry.
    rewrite bind_unfold in Htry. unfold py_truediv in Htry.
    destruct (PrimFloat.is_zero _); [done|]. unfold ret at 1 in Htry.
    eauto.
  - destruct (is_Exception e1); [|done].
    unfold except_suite. rewrite bind_unfold. cbn [print emit]. eauto.
Qed.

Lemma while_collection_active_step sample persist t schedule w :
  collection_active (self w) = true →
  while_collection_active sample persist (t :: schedule) w
  = match iteration sample persist t w with
    | (w', Ok _) => while_collection_active sample persist schedule w'
    | (w', Raise e) => (w', Propagated e, schedule)
    end.
Proof. intros Hactive. cbn [while_collection_active]. by rewrite Hactive. Qed.

Lemma while_collection_active_exit sample persist schedule w :
  collection_active (self w) = false →
  while_collection_active sample persist schedule w = (w, Returned, schedule).
Proof. intros Hactive. destruct schedule; cbn; by rewrite Hactive. Qed.

(** The loop returns only with the flag clear. *)
Lemma while_collection_active_returned sample persist schedule w w' rest :
  while_collection_active sample persist schedule w = (w', Returned, rest) →
  collection_active (self w') = false.
Proof.
  revert w. induction schedule as [|t schedule IH]; intros w.
  - cbn. destruct (collection_active (self w)) eqn:Hactive; [done|].
    intros Heq. by injection Heq as <- _.
  - destruct (collection_active (self w)) eqn:Hactive.
    + rewrite while_collection_active_step by done.
      destruct (iteration sample persist t w) as [w1 [[]|e1]]; [apply IH|done].
    + rewrite while_collection_active_exit by done.
      intros Heq. by injection Heq as <- _.
Qed.

(** C9. When a step of a pass (sampling, aggregating, encoding,
    persisting, or computing the wait) raises an [Exception], the loop's
    [except] clause takes it: the line [Collection error: e] is printed,
    the task waits one second, and, unless it is cancelled during that
    wait, the pass completes and the loop goes on to its next test of
    the flag.  No [Exception] ever leaves the loop: what leaves it is a
    cancellation or an interrupt, and it returns only once the flag is
    clear. *)
Theorem collection_errors_are_caught
    (sample : tick → M BiometricState)
    (persist : BiometricState → list float → M unit) :
  (∀ t w w1 e,
     try_suite sample persist t w = (w1, Raise e) →
     is_Exception e = true →
     iteration sample persist t w
     = asyncio_sleep (during_sleep t) 1
         {| self := self w1;
            trace := trace w1 ++ [Print (CollectionError e)] |}
     ∧ (during_sleep t ≠ Cancelled →
        ∃ w',
          iteration sample persist t w = (w', Ok tt)
          ∧ trace w'
            = trace w1 ++ [Print (CollectionError e); Sleep 1]
                ++ match during_sleep t with
                   | StopRequested => [Print Stopped]
                   | _ => []
                   end
          ∧ ∀ schedule,
              collection_active (self w) = true →
              while_collection_active sample persist (t :: schedule) w
              = while_collection_active sample persist schedule w'))
  ∧ (∀ schedule w w' e rest,
       while_collection_active sample persist schedule w
       = (w', Propagated e, rest) →
       is_Exception e = false)
  ∧ (∀ schedule w w' rest,
       while_collection_active sample persist schedule w
       = (w', Returned, rest) →
       collection_active (self w') = false).
Proof.
  split; [|split; [|apply while_collection_active_returned]].
  - intros t w w1 e Htry Hcaught.
    assert (iteration sample persist t w
            = asyncio_sleep (during_sleep t) 1
                {| self := self w1;
                   trace := trace w1 ++ [Print (CollectionError e)] |})
      as Hiter.
    { unfold iteration, try_except. by rewrite Htry, Hcaught. }
    split; [exact Hiter|]. intros Hawait.
    rewrite Hiter, asyncio_sleep_cases.
    destruct (during_sleep t); [| |done].
    + eexists. split; [reflexivity|]. cbn [trace self]. split.
      * by rewrite <- app_assoc.
      * intros schedule Hactive.
        rewrite while_collection_active_step, Hiter, asyncio_sleep_cases by done.
        reflexivity.
    + eexists. split; [reflexivity|]. cbn [trace self]. split.
      * by rewrite <- !app_assoc.
      * intros schedule Hactive.
        rewrite while_collection_active_step, Hiter, asyncio_sleep_cases by done.
        reflexivity.
  - intros schedule. induction schedule as [|t schedule IH]; intros w w' e rest.
    + cbn. by destruct (collection_active (self w)).
    + destruct (collection_active (self w)) eqn:Hactive.
      * rewrite while_collection_active_step by done.
        destruct (iteration sample persist t w) as [w1 [[]|e1]] eqn:Hiter.
        -- apply IH.
        -- intros Heq. injection Heq as _ <- _.
           by eapply iteration_raises.
      * by rewrite while_collection_active_exit.
Qed.

Lemma collection_errors_are_caught_witness :
  let w1 := (try_suite simulated_sensors _store_training_data
               (example_tick Resumed) stalled).1 in
  nexis_iteration (example_tick Resumed) stalled
  = asyncio_sleep Resumed 1
      {| self := self w1;
         trace := trace w1 ++ [Print (CollectionError ZeroDivisionError)] |}
  ∧ (Resumed ≠ Cancelled →
     ∃ w',
       nexis_iteration (example_tick Resumed) stalled = (w', Ok tt)
       ∧ trace w'
         = trace w1 ++ [Print (CollectionError ZeroDivisionError); Sleep 1] ++ []
       ∧ ∀ schedule,
           collection_active (self stalled) = true →
           while_collection_active simulated_sensors _store_training_data
             (example_tick Resumed :: schedule) stalled
           = while_collection_active simulated_sensors _store_training_data
               schedule w').
Proof.
  apply (proj1 (collection_errors_are_caught simulated_sensors
                  _store_training_data)
           (example_tick Resumed) stalled
           (try_suite simulated_sensors _store_training_data
              (example_tick Resumed) stalled).1
           ZeroDivisionError).
  - vm_compute. reflexivity.
  - reflexivity.
Defined.

(** C10. The loop tests [collection_active] before every pass: with the
    flag clear it returns at once, doing nothing; with the flag set it
    runs one more pass.  When [stop_collection] is called while a pass
    is waiting, that pass is carried to its end (the wait completes, and
    the line of [stop_collection] follows it), the flag is clear, and
    the loop returns without starting another pass, whatever the ticks
    that would have followed.  The loop returns only with the flag
    clear. *)
Theorem loop_runs_while_active
    (sample : tick → M BiometricState)
    (persist : BiometricState → list float → M unit) :
  (∀ schedule w,
     collection_active (self w) = false →
     while_collection_active sample persist schedule w
     = (w, Returned, schedule))
  ∧ (∀ t schedule w,
       collection_active (self w) = true →
       while_collection_active sample persist (t :: schedule) w
       = match iteration sample persist t w with
         | (w', Ok _) => while_collection_active sample persist schedule w'
         | (w', Raise e) => (w', Propagated e, schedule)
         end)
  ∧ (∀ t schedule w w',
       collection_active (self w) = true →
       during_sleep t = StopRequested →
       iteration sample persist t w = (w', Ok tt) →
       collection_active (self w') = false
       ∧ (∃ w0 seconds,
            trace w' = trace w0 ++ [Sleep seconds; Print Stopped])
       ∧ while_collection_active sample persist (t :: schedule) w
         = (w', Returned, schedule))
  ∧ (∀ schedule w w' rest,
       while_collection_active sample persist schedule w
       = (w', Returned, rest) →
       collection_active (self w') = false).
Proof.
  split; [apply while_collection_active_exit|].
  split; [apply while_collection_active_step|].
  split.
  - intros t schedule w w' Hactive Hstop Hiter.
    destruct (iteration_ends_in_sleep _ _ _ _ _ Hiter) as (w0 & seconds & Hsleep).
    rewrite Hstop, asyncio_sleep_cases in Hsleep. injection Hsleep as <-.
    cbn [self trace collection_active]. split; [done|]. split.
    + exists w0, seconds. by rewrite <- app_assoc.
    + rewrite while_collection_active_step, Hiter by done.
      by rewrite while_collection_active_exit.
  - apply while_collection_active_returned.
Qed.

Lemma loop_runs_while_active_witness :
  let w' := (nexis_iteration (example_tick StopRequested) running).1 in
  collection_active (self w') = false
  ∧ (∃ w0 seconds, trace w' = trace w0 ++ [Sleep seconds; Print Stopped])
  ∧ while_collection_active simulated_sensors _store_training_data
      [example_tick StopRequested; example_tick Resumed] running
    = (w', Returned, [example_tick Resumed]).
Proof.
  apply (proj1 (proj2 (proj2 (loop_runs_while_active simulated_sensors
                                _store_training_data)))
           (example_tick StopRequested) [example_tick Resumed] running
           (nexis_iteration (example_tick StopRequested) running).1).
  - reflexivity.
  - reflexivity.
  - vm_compute. reflexivity.
Defined.

(** * Further properties *)

(** ** Encoder: defaults, fields read, readings used *)

Lemma raw_features_app w1 w2 :
  raw_features (w1 ++ w2) = raw_features w1 ++ raw_features w2.
Proof. unfold raw_features. by rewrite fmap_app, concat_app. Qed.

Lemma raw_features_take n w :
  raw_features (take n w) = take (15 * n) (raw_features w).
Proof.
  revert n. induction w as [|state w IH]; intros n.
  - rewrite take_nil. change (raw_features []) with (@nil float).
    by rewrite take_nil.
  - destruct n as [|n].
    + by replace (15 * 0) with 0 by lia.
    + change (take (S n) (state :: w)) with (state :: take n w).
      change (raw_features (state :: take n w))
        with (state_features state ++ raw_features (take n w)).
      change (raw_features (state :: w))
        with (state_features state ++ raw_features w).
      rewrite IH.
      replace (15 * S n) with (length (state_features state) + 15 * n)
        by (rewrite length_state_features; lia).
      by rewrite take_app_add.
Qed.

Lemma blank_features state : blank state → state_features state = replicate 15 0%float.
Proof.
  destruct state as [ts phys cog behav env].
  intros (Hphys & Hcog & Hbehav & Henv). cbn in *. subst. reflexivity.
Qed.

(** X1. A reading with nothing in its mappings is encoded by the
    defaults of the lookups: a window of such readings, of any length,
    gives 768 zeros. *)
Theorem create_cognitive_embeddings_blank (telemetry_window : list BiometricState) :
  Forall blank telemetry_window →
  create_cognitive_embeddings telemetry_window = replicate 768 0%float.
Proof.
  intros Hblank. rewrite create_cognitive_embeddings_closed.
  assert (raw_features telemetry_window
          = replicate (15 * length telemetry_window) 0%float) as ->.
  { induction Hblank as [|state w Hstate _ IH]; [done|].
    change (raw_features (state :: w))
      with (state_features state ++ raw_features w).
    rewrite IH, blank_features by done.
    rewrite <- replicate_add. f_equal. cbn [length]. lia. }
  rewrite take_replicate, fmap_replicate, to_float32_zero, length_replicate.
  rewrite <- replicate_add. f_equal. lia.
Qed.

Lemma create_cognitive_embeddings_blank_witness :
  create_cognitive_embeddings
    (replicate 3 {| timestamp := example_now; physiological := ∅;
                    cognitive := ∅; behavioral := ∅; environmental := ∅ |})
  = replicate 768 0%float.
Proof.
  apply create_cognitive_embeddings_blank.
  repeat constructor.
Defined.

Lemma same_fields_features s1 s2 :
  same_fields s1 s2 → state_features s1 = state_features s2.
Proof.
  intros (Hphys & Hcog & Hbehav & Henv).
  unfold state_features, phys_features, cog_features, behav_features,
    env_features, dict_get.
  unfold physiological_keys in Hphys. unfold cognitive_keys in Hcog.
  unfold behavioral_keys in Hbehav. unfold environmental_keys in Henv.
  repeat match goal with
         | H : Forall _ (_ :: _) |- _ => apply Forall_cons in H as [-> H]
         end.
  reflexivity.
Qed.

(** X2. The encoder reads fifteen keys and nothing else: windows whose
    readings agree, one by one, under those keys get the same vector,
    whatever their timestamps and their other keys. *)
Theorem create_cognitive_embeddings_same_fields
    (window1 window2 : list BiometricState) :
  Forall2 same_fields window1 window2 →
  create_cognitive_embeddings window1 = create_cognitive_embeddings window2.
Proof.
  intros Hsame. rewrite !create_cognitive_embeddings_closed.
  assert (raw_features window1 = raw_features window2) as ->; [|done].
  induction Hsame as [|s1 s2 w1 w2 Hs _ IH]; [done|].
  change (raw_features (s1 :: w1)) with (state_features s1 ++ raw_features w1).
  change (raw_features (s2 :: w2)) with (state_features s2 ++ raw_features w2).
  by rewrite IH, (same_fields_features s1 s2).
Qed.

Lemma create_cognitive_embeddings_same_fields_witness :
  create_cognitive_embeddings [example_reading]
  = create_cognitive_embeddings [example_reading_later].
Proof.
  apply create_cognitive_embeddings_same_fields.
  repeat constructor.
Defined.

(** X3. Only the first 52 readings of a window are used. *)
Theorem create_cognitive_embeddings_first_52
    (telemetry_window : list BiometricState) :
  create_cognitive_embeddings telemetry_window
  = create_cognitive_embeddings (take 52 telemetry_window).
Proof.
  rewrite !create_cognitive_embeddings_closed, raw_features_take.
  rewrite take_take, length_take.
  replace (768 `min` (15 * 52)) with 768 by lia.
  do 2 f_equal. lia.
Qed.

(** X4. The 52nd reading of a window is cut after three values: the
    last three entries of the vector are its heart rate, HRV and GSR. *)
Theorem create_cognitive_embeddings_last_entries
    (telemetry_window : list BiometricState) (state : BiometricState) :
  telemetry_window !! 51 = Some state →
  drop 765 (create_cognitive_embeddings telemetry_window)
  = to_float32 <$>
      [ dict_get (physiological state) "heart_rate" 0;
        dict_get (physiological state) "hrv_rmssd" 0;
        dict_get (physiological state) "gsr" 0 ].
Proof.
  intros Hstate.
  assert (51 < length telemetry_window) as Hlen by (by eapply lookup_lt_Some).
  pose proof (length_raw_features telemetry_window) as Hraw.
  rewrite create_cognitive_embeddings_closed.
  replace (768 - length (raw_features telemetry_window)) with 0 by lia.
  rewrite app_nil_r, <- fmap_drop. f_equal.
  replace 768 with (765 + 3) by lia. rewrite <- take_drop_commute.
  replace 3 with (3 `min` 15) by lia. rewrite <- take_take.
  transitivity (take 3 (state_features state)); [|reflexivity].
  f_equal. exact (raw_features_block telemetry_window 51 state Hstate).
Qed.

Lemma create_cognitive_embeddings_last_entries_witness :
  drop 765 (create_cognitive_embeddings (replicate 60 example_reading))
  = to_float32 <$>
      [ dict_get (physiological example_reading) "heart_rate" 0;
        dict_get (physiological example_reading) "hrv_rmssd" 0;
        dict_get (physiological example_reading) "gsr" 0 ].
Proof.
  apply create_cognitive_embeddings_last_entries. reflexivity.
Defined.

(** X5. Readings added at the end of a window leave the entries of the
    readings before them as they were. *)
Theorem create_cognitive_embeddings_append
    (window more : list BiometricState) :
  take (15 * length window) (create_cognitive_embeddings (window ++ more))
  = take (15 * length window) (create_cognitive_embeddings window).
Proof.
  rewrite !create_cognitive_embeddings_closed, raw_features_app.
  pose proof (length_raw_features window) as Hraw. rewrite <- Hraw.
  set (raw := raw_features window) in *. set (raw' := raw_features more).
  destruct (decide (length raw ≤ 768)) as [Hfit|Hcut].
  - rewrite (take_app_le (to_float32 <$> take 768 (raw ++ raw')))
      by (rewrite length_fmap, length_take, length_app; lia).
    rewrite (take_app_le (to_float32 <$> take 768 raw))
      by (rewrite length_fmap, length_take; lia).
    rewrite <- !fmap_take, !take_take.
    replace (length raw `min` 768) with (length raw) by lia.
    by rewrite take_app_length, firstn_all.
  - rewrite (take_app_le raw raw') by lia.
    rewrite length_app.
    by replace (768 - (length raw + length raw')) with (768 - length raw) by lia.
Qed.

(** X6. What the encoder makes of a sampled reading: the five simulated
    physiological values, the four cognitive estimates, typing rhythm and
    stress markers, the hour over 24, the weekday over 7, light and
    noise; the mouse dynamics and the task-switch count that the sampler
    also draws never reach the vector. *)
Theorem create_cognitive_embeddings_sampled (now : datetime) (r : draws) :
  create_cognitive_embeddings [collect_current_state now r]
  = (to_float32 <$>
       [ (70 + normal_0_5 r)%float;
         (50 + normal_0_10 r)%float;
         uniform_gsr r;
         (0x1.8a66666666666p+6 + normal_0_05 r)%float;
         (16 + normal_0_2 r)%float;
         uniform_attention r;
         uniform_load r;
         uniform_focus r;
         uniform_executive r;
         uniform_typing r;
         uniform_stress r;
         (float_of_int (hour now) / 24)%float;
         (float_of_int (weekday now) / 7)%float;
         uniform_light r;
         uniform_noise r ])
      ++ replicate 753 0%float.
Proof.
  rewrite create_cognitive_embeddings_closed.
  unfold raw_features. rewrite fmap_cons, fmap_nil, concat_cons, concat_nil.
  rewrite app_nil_r, length_state_features.
  rewrite take_ge by (rewrite length_state_features; lia).
  replace (768 - 15) with 753 by lia.
  reflexivity.
Qed.

(** ** Aggregator: missing categories, empty readings, order *)

Lemma for_each_app {A} (l1 l2 : list A) (body : A → M unit) w :
  for_each (l1 ++ l2) body w
  = (do _ <- for_each l1 body; for_each l2 body) w.
Proof.
  revert w. induction l1 as [|x l1 IH]; intros w; [done|].
  cbn [app for_each]. rewrite !bind_unfold.
  destruct (body x w) as [w1 [[]|e]]; [|done].
  by rewrite IH, bind_unfold.
Qed.

(** The inner loop over a mapping with something in it, when the
    category is not in the log: the first subscript raises. *)
Lemma for_each_items_missing ts category items w :
  telemetry_streams (self w) !! category = None →
  items ≠ [] →
  for_each items
    (λ '(key, value),
       append_if_declared category key
         {| entry_timestamp := ts; entry_value := value |}) w
  = (w, Raise (KeyError category)).
Proof.
  intros Hmissing Hitems. destruct items as [|[key value] items]; [done|].
  cbn [for_each]. rewrite bind_unfold.
  unfold append_if_declared. rewrite bind_unfold.
  unfold get_self at 1. by rewrite Hmissing.
Qed.

(** X7. When the log lacks a category whose mapping in the reading is
    not empty, [process_and_store] raises [KeyError] on that category:
    the categories before it have been logged and stay logged, and
    neither the later ones nor the persistence call are reached. *)
Theorem process_and_store_missing_category
    (persist : BiometricState → list float → M unit)
    (state : BiometricState) (w : world)
    (pre post : list (string * gmap string pyval))
    (category : string) (data : gmap string pyval) :
  category_data state = pre ++ (category, data) :: post →
  Forall (λ c, is_Some (telemetry_streams (self w) !! c)) pre.*1 →
  telemetry_streams (self w) !! category = None →
  data ≠ ∅ →
  process_and_store persist state w
  = (with_streams w
       (append_categories (timestamp state) pre (telemetry_streams (self w))),
     Raise (KeyError category)).
Proof.
  intros Hsplit Hpre Hmissing Hdata.
  unfold process_and_store, store_in_streams.
  rewrite bind_unfold, Hsplit, for_each_app, bind_unfold.
  rewrite for_each_categories by done.
  cbn [for_each]. rewrite bind_unfold.
  rewrite for_each_items_missing; [done| |].
  - cbn [with_streams self telemetry_streams].
    apply eq_None_not_Some. rewrite append_categories_present.
    by rewrite Hmissing; intros [? ?].
  - by rewrite map_to_list_empty_iff.
Qed.

Lemma process_and_store_missing_category_witness :
  nexis_process_and_store example_reading physiological_only
  = (with_streams physiological_only
       (append_categories (timestamp example_reading)
          [("physiological"%string, physiological example_reading)]
          (telemetry_streams (self physiological_only))),
     Raise (KeyError "cognitive_state")).
Proof.
  apply (process_and_store_missing_category _store_training_data
           example_reading physiological_only
           [("physiological"%string, physiological example_reading)]
           [("behavioral_patterns"%string, behavioral example_reading);
            ("environmental_context"%string, environmental example_reading)]
           "cognitive_state" (cognitive example_reading)).
  - reflexivity.
  - repeat constructor. by eexists.
  - reflexivity.
  - apply insert_non_empty.
Defined.

(** X8. A reading with nothing in its mappings never touches the log,
    so it goes straight to the persistence call, with 768 zeros, even
    on a log that has no categories at all. *)
Theorem process_and_store_blank
    (persist : BiometricState → list float → M unit)
    (state : BiometricState) (w : world) :
  blank state →
  process_and_store persist state w = persist state (replicate 768 0%float) w.
Proof.
  intros (Hphys & Hcog & Hbehav & Henv).
  unfold process_and_store, store_in_streams, category_data.
  rewrite Hphys, Hcog, Hbehav, Henv, bind_unfold.
  cbn [for_each]. rewrite !bind_unfold, map_to_list_empty.
  reflexivity.
Qed.

Lemma process_and_store_blank_witness :
  let state := {| timestamp := example_now; physiological := ∅;
                  cognitive := ∅; behavioral := ∅; environmental := ∅ |} in
  nexis_process_and_store state emptied
  = _store_training_data state (replicate 768 0%float) emptied.
Proof.
  apply (process_and_store_blank _store_training_data). by repeat split.
Defined.

Lemma has_categories_append ts cats streams :
  has_categories streams = true →
  has_categories (append_categories ts cats streams) = true.
Proof.
  unfold has_categories. rewrite !forallb_forall.
  intros Hcats c Hc. specialize (Hcats c Hc).
  rewrite bool_decide_eq_true in *. by apply append_categories_present.
Qed.

(** X9. On a log with the four categories, the persistence call runs on
    the log as the aggregation left it; there is no rollback, so what a
    failing persistence call leaves of the log includes the new
    entries. *)
Theorem process_and_store_then_persist
    (persist : BiometricState → list float → M unit)
    (state : BiometricState) (w : world) :
  has_categories (telemetry_streams (self w)) = true →
  process_and_store persist state w
  = persist state (replicate 768 0%float)
      (with_streams w
         (append_categories (timestamp state) (category_data state)
            (telemetry_streams (self w)))).
Proof.
  intros Hcats. unfold process_and_store.
  rewrite bind_unfold, store_in_streams_closed by done.
  reflexivity.
Qed.

Lemma process_and_store_then_persist_witness :
  process_and_store (λ _ _, raise (OtherException "disk full"))
    example_reading heart_rate_log
  = (with_streams heart_rate_log
       (append_categories (timestamp example_reading)
          (category_data example_reading)
          (telemetry_streams (self heart_rate_log))),
     Raise (OtherException "disk full")).
Proof.
  apply (process_and_store_then_persist
           (λ _ _, raise (OtherException "disk full"))
           example_reading heart_rate_log).
  reflexivity.
Defined.

(** X10. [process_and_store] only ever appends: what a sequence held
    stays in front, in order, and at most one entry, stamped with the
    reading's timestamp, comes after it. *)
Theorem process_and_store_append_only
    (state : BiometricState) (w : world) (category key : string)
    (log : list entry) :
  has_categories (telemetry_streams (self w)) = true →
  log_of (telemetry_streams (self w)) category key = Some log →
  ∃ added,
    log_of (telemetry_streams (self (nexis_process_and_store state w).1))
      category key = Some (log ++ added)
    ∧ length added ≤ 1
    ∧ Forall (λ e, entry_timestamp e = timestamp state) added.
Proof.
  intros Hcats Hlog.
  rewrite process_and_store_effect by done.
  cbn [fst self with_streams telemetry_streams].
  rewrite log_of_append_categories by apply NoDup_category_data.
  rewrite Hlog. eexists. split; [reflexivity|].
  destruct (_ ≫= _) as [v|]; cbn; split; (lia || by repeat constructor).
Qed.

Lemma process_and_store_append_only_witness :
  ∃ added,
    log_of (telemetry_streams
              (self (nexis_process_and_store example_reading heart_rate_log).1))
      "physiological" "heart_rate" = Some ([] ++ added)
    ∧ length added ≤ 1
    ∧ Forall (λ e, entry_timestamp e = timestamp example_reading) added.
Proof.
  apply (process_and_store_append_only example_reading heart_rate_log
           "physiological" "heart_rate" []); reflexivity.
Defined.

(** X11. Entries are logged in the order the readings arrive: two
    readings with a value under a declared name, processed one after the
    other, leave their two entries at the end of the sequence, the first
    reading's first. *)
Theorem process_and_store_arrival_order
    (state1 state2 : BiometricState) (w : world) (category key : string)
    (log : list entry) (v1 v2 : pyval) :
  has_categories (telemetry_streams (self w)) = true →
  log_of (telemetry_streams (self w)) category key = Some log →
  value_of state1 category key = Some v1 →
  value_of state2 category key = Some v2 →
  let w1 := (nexis_process_and_store state1 w).1 in
  let w2 := (nexis_process_and_store state2 w1).1 in
  log_of (telemetry_streams (self w2)) category key
  = Some (log ++ [ {| entry_timestamp := timestamp state1; entry_value := v1 |};
                   {| entry_timestamp := timestamp state2; entry_value := v2 |} ]).
Proof.
  intros Hcats Hlog Hv1 Hv2 w1 w2. subst w1 w2.
  rewrite (process_and_store_effect state1 w) by done.
  cbn [fst].
  rewrite process_and_store_effect.
  - cbn [fst self with_streams telemetry_streams].
    rewrite !log_of_append_categories by apply NoDup_category_data.
    unfold value_of in Hv1, Hv2. rewrite Hlog, Hv1, Hv2. cbn.
    by rewrite <- app_assoc.
  - by apply has_categories_append.
Qed.

Lemma process_and_store_arrival_order_witness :
  let w1 := (nexis_process_and_store example_reading heart_rate_log).1 in
  let w2 := (nexis_process_and_store example_reading_later w1).1 in
  log_of (telemetry_streams (self w2)) "physiological" "heart_rate"
  = Some ([] ++ [ {| entry_timestamp := timestamp example_reading;
                     entry_value := 70 |};
                  {| entry_timestamp := timestamp example_reading_later;
                     entry_value := 70 |} ]).
Proof.
  apply (process_and_store_arrival_order example_reading example_reading_later
           heart_rate_log "physiological" "heart_rate" [] 70 70);
    reflexivity.
Defined.

(** ** Runs of the simulated pipeline *)

(** One pass on a log with the four categories: the sampled reading is
    aggregated, the record line printed, and the wait (after the error
    line, when [sample_rate] is zero) ends as the tick says. *)
Lemma nexis_iteration_pass t w :
  has_categories (telemetry_streams (self w)) = true →
  nexis_iteration t w
  = ({| self :=
          {| telemetry_streams := aggregate_tick t (telemetry_streams (self w));
             collection_active :=
               match during_sleep t with
               | StopRequested => false
               | _ => collection_active (self w)
               end;
             sample_rate := sample_rate (self w) |};
        trace := trace w ++ pass_events (sample_rate (self w)) t |},
     match during_sleep t with
     | Cancelled => Raise CancelledError
     | _ => Ok tt
     end).
Proof.
  intros Hcats.
  unfold nexis_iteration, iteration, try_except, try_suite, simulated_sensors.
  rewrite bind_unfold. unfold ret at 1.
  change (process_and_store _store_training_data) with nexis_process_and_store.
  rewrite bind_unfold, process_and_store_effect by done.
  rewrite bind_unfold. unfold get_self at 1.
  cbn [self with_streams sample_rate timestamp collect_current_state].
  rewrite bind_unfold. unfold py_truediv, pass_events, aggregate_tick.
  destruct (PrimFloat.is_zero (sample_rate (self w)));
    [cbn [raise is_Exception]; unfold except_suite; rewrite bind_unfold;
     cbn [print emit self trace]
    |unfold ret at 1];
    rewrite asyncio_sleep_cases;
    destruct (during_sleep t);
    cbn [self trace telemetry_streams collection_active sample_rate
         is_Exception];
    rewrite <- ?app_assoc; reflexivity.
Qed.

Lemma has_categories_aggregate_ticks schedule streams :
  has_categories streams = true →
  has_categories (aggregate_ticks schedule streams) = true.
Proof.
  unfold aggregate_ticks. revert streams.
  induction schedule as [|t schedule IH]; intros streams Hcats; [done|].
  cbn [foldl]. apply IH. unfold aggregate_tick.
  exact (has_categories_append _ _ _ Hcats).
Qed.

(** The passes of a quiet stretch of the schedule, taken together. *)
Lemma nexis_while_quiet pre rest w :
  has_categories (telemetry_streams (self w)) = true →
  collection_active (self w) = true →
  quiet pre →
  while_collection_active simulated_sensors _store_training_data (pre ++ rest) w
  = while_collection_active simulated_sensors _store_training_data rest
      {| self :=
           {| telemetry_streams := aggregate_ticks pre (telemetry_streams (self w));
              collection_active := true;
              sample_rate := sample_rate (self w) |};
         trace := trace w
                  ++ concat (pass_events (sample_rate (self w)) <$> pre) |}.
Proof.
  intros Hcats Hactive Hquiet. revert w Hcats Hactive.
  induction Hquiet as [|t pre Ht _ IH]; intros w Hcats Hactive.
  - cbn [app fmap list_fmap concat aggregate_ticks foldl].
    rewrite app_nil_r. destruct w as [[s a r] tr]. cbn in Hactive. by subst.
  - set (w1 := {| self :=
                    {| telemetry_streams :=
                         aggregate_tick t (telemetry_streams (self w));
                       collection_active := true;
                       sample_rate := sample_rate (self w) |};
                  trace := trace w ++ pass_events (sample_rate (self w)) t |}).
    assert (iteration simulated_sensors _store_training_data t w = (w1, Ok tt))
      as Hiter.
    { pose proof (nexis_iteration_pass t w Hcats) as Hpass.
      unfold nexis_iteration in Hpass. rewrite Hpass, Ht, Hactive.
      reflexivity. }
    rewrite <- app_comm_cons.
    rewrite (while_collection_active_step _ _ t (pre ++ rest) w Hactive), Hiter.
    assert (has_categories (telemetry_streams (self w1)) = true) as Hcats1.
    { unfold w1. cbn [self telemetry_streams]. unfold aggregate_tick.
      exact (has_categories_append _ _ _ Hcats). }
    rewrite (IH w1 Hcats1 eq_refl).
    f_equal. unfold w1. cbn [self trace telemetry_streams sample_rate].
    unfold aggregate_ticks. cbn [foldl].
    rewrite fmap_cons, concat_cons. by rewrite <- app_assoc.
Qed.

(** X12. While nothing happens during the waits, the loop keeps going:
    it uses up every tick of the schedule and is still running; each
    pass prints one record line and waits [1 / sample_rate] seconds, or,
    with [sample_rate] zero, prints the record line and the
    division-by-zero error line and waits one second. *)
Theorem nexis_collection_quiet (schedule : list tick) (w : world) :
  has_categories (telemetry_streams (self w)) = true →
  quiet schedule →
  nexis_collection schedule w
  = ({| self :=
          {| telemetry_streams :=
               aggregate_ticks schedule (telemetry_streams (self w));
             collection_active := true;
             sample_rate := sample_rate (self w) |};
        trace := trace w
                 ++ Print Starting
                    :: concat (pass_events (sample_rate (self w)) <$> schedule) |},
     StillRunning, []).
Proof.
  intros Hcats Hquiet.
  unfold nexis_collection, start_continuous_collection.
  rewrite <- (app_nil_r schedule) at 1.
  rewrite nexis_while_quiet by done.
  cbn [while_collection_active self collection_active trace telemetry_streams
       sample_rate].
  by rewrite <- app_assoc.
Qed.

Lemma nexis_collection_quiet_witness :
  nexis_collection [example_tick Resumed; example_tick Resumed] stalled
  = ({| self :=
          {| telemetry_streams :=
               aggregate_ticks [example_tick Resumed; example_tick Resumed]
                 (telemetry_streams (self stalled));
             collection_active := true;
             sample_rate := sample_rate (self stalled) |};
        trace := trace stalled
                 ++ Print Starting
                    :: concat (pass_events (sample_rate (self stalled))
                                 <$> [example_tick Resumed; example_tick Resumed]) |},
     StillRunning, []).
Proof.
  apply nexis_collection_quiet; [reflexivity|by repeat constructor].
Defined.

(** X13. A call of [stop_collection] during the wait of a pass ends the
    run there: the passes up to and including that one are carried out
    in full, the flag is clear, the loop returns, and the ticks after it
    are left unused. *)
Theorem nexis_collection_stopped
    (pre post : list tick) (t : tick) (w : world) :
  has_categories (telemetry_streams (self w)) = true →
  quiet pre →
  during_sleep t = StopRequested →
  nexis_collection (pre ++ t :: post) w
  = ({| self :=
          {| telemetry_streams :=
               aggregate_ticks (pre ++ [t]) (telemetry_streams (self w));
             collection_active := false;
             sample_rate := sample_rate (self w) |};
        trace := trace w
                 ++ Print Starting
                    :: concat (pass_events (sample_rate (self w))
                                 <$> pre ++ [t]) |},
     Returned, post).
Proof.
  intros Hcats Hquiet Hstop.
  unfold nexis_collection, start_continuous_collection.
  rewrite nexis_while_quiet by done.
  rewrite while_collection_active_step by done.
  pose proof (nexis_iteration_pass t) as Hpass.
  unfold nexis_iteration in Hpass.
  rewrite Hpass by (by apply has_categories_aggregate_ticks).
  rewrite Hstop, while_collection_active_exit by done.
  cbn [self trace telemetry_streams sample_rate].
  unfold aggregate_ticks. rewrite foldl_app, fmap_app, concat_app.
  cbn [foldl fmap list_fmap concat]. rewrite app_nil_r.
  by rewrite <- !app_assoc.
Qed.

Lemma nexis_collection_stopped_witness :
  nexis_collection
    ([example_tick Resumed] ++ example_tick StopRequested :: [example_tick Resumed])
    fresh
  = ({| self :=
          {| telemetry_streams :=
               aggregate_ticks ([example_tick Resumed] ++ [example_tick StopRequested])
                 (telemetry_streams (self fresh));
             collection_active := false;
             sample_rate := sample_rate (self fresh) |};
        trace := trace fresh
                 ++ Print Starting
                    :: concat (pass_events (sample_rate (self fresh))
                                 <$> [example_tick Resumed]
                                     ++ [example_tick StopRequested]) |},
     Returned, [example_tick Resumed]).
Proof.
  apply nexis_collection_stopped;
    [reflexivity|by repeat constructor|reflexivity].
Defined.

(** X14. A cancellation during the wait of a pass leaves the loop as
    [CancelledError]: that pass has already logged and printed its
    record, the ticks after it are unused, and [collection_active] is
    still set, since nothing in the loop clears it. *)
Theorem nexis_collection_cancelled
    (pre post : list tick) (t : tick) (w : world) :
  has_categories (telemetry_streams (self w)) = true →
  quiet pre →
  during_sleep t = Cancelled →
  nexis_collection (pre ++ t :: post) w
  = ({| self :=
          {| telemetry_streams :=
               aggregate_ticks (pre ++ [t]) (telemetry_streams (self w));
             collection_active := true;
             sample_rate := sample_rate (self w) |};
        trace := trace w
                 ++ Print Starting
                    :: concat (pass_events (sample_rate (self w))
                                 <$> pre ++ [t]) |},
     Propagated CancelledError, post).
Proof.
  intros Hcats Hquiet Hcancel.
  unfold nexis_collection, start_continuous_collection.
  rewrite nexis_while_quiet by done.
  rewrite while_collection_active_step by done.
  pose proof (nexis_iteration_pass t) as Hpass.
  unfold nexis_iteration in Hpass.
  rewrite Hpass by (by apply has_categories_aggregate_ticks).
  rewrite Hcancel.
  cbn [self trace telemetry_streams sample_rate collection_active].
  unfold aggregate_ticks. rewrite foldl_app, fmap_app, concat_app.
  cbn [foldl fmap list_fmap concat]. rewrite app_nil_r.
  by rewrite <- !app_assoc.
Qed.

Lemma nexis_collection_cancelled_witness :
  nexis_collection
    ([example_tick Resumed] ++ example_tick Cancelled :: [example_tick Resumed])
    fresh
  = ({| self :=
          {| telemetry_streams :=
               aggregate_ticks ([example_tick Resumed] ++ [example_tick Cancelled])
                 (telemetry_streams (self fresh));
             collection_active := true;
             sample_rate := sample_rate (self fresh) |};
        trace := trace fresh
                 ++ Print Starting
                    :: concat (pass_events (sample_rate (self fresh))
                                 <$> [example_tick Resumed]
                                     ++ [example_tick Cancelled]) |},
     Propagated CancelledError, [example_tick Resumed]).
Proof.
  apply nexis_collection_cancelled;
    [reflexivity|by repeat constructor|reflexivity].
Defined.

Lemma fmap_app_app (o : option (list entry)) (l1 l2 : list entry) :
  (λ log, log ++ l2) <$> ((λ log, log ++ l1) <$> o)
  = (λ log, log ++ (l1 ++ l2)) <$> o.
Proof. destruct o as [log|]; [cbn; by rewrite app_assoc|done]. Qed.

(** The log after the passes of a schedule, sequence by sequence. *)
Lemma log_of_aggregate_ticks schedule streams category key :
  log_of (aggregate_ticks schedule streams) category key
  = (λ log,
       log ++ concat
                ((λ t, new_entries (now t)
                         (value_of (collect_current_state (now t) (rng t))
                            category key))
                   <$> schedule))
      <$> log_of streams category key.
Proof.
  unfold aggregate_ticks. revert streams.
  induction schedule as [|t schedule IH]; intros streams.
  - cbn [foldl fmap list_fmap concat]. by rewrite fmap_app_nil.
  - cbn [foldl]. rewrite IH. unfold aggregate_tick.
    rewrite log_of_append_categories by apply NoDup_category_data.
    rewrite fmap_app_app, fmap_cons, concat_cons. reflexivity.
Qed.

(** X15. Over a run, a declared sequence receives one entry per pass in
    which the sampled reading has a value under its name in the mapping
    that belongs under its category, in the order of the passes and
    stamped with their clock readings; nothing else is put into it. *)
Theorem nexis_collection_logs_in_order
    (schedule : list tick) (w : world) (category key : string)
    (log : list entry) :
  has_categories (telemetry_streams (self w)) = true →
  quiet schedule →
  log_of (telemetry_streams (self w)) category key = Some log →
  log_of (telemetry_streams (self (nexis_collection schedule w).1.1))
    category key
  = Some (log ++ concat
                   ((λ t, new_entries (now t)
                            (mapping_under
                               (collect_current_state (now t) (rng t))
                               category !! key))
                      <$> schedule)).
Proof.
  intros Hcats Hquiet Hlog.
  unfold nexis_collection, start_continuous_collection.
  rewrite <- (app_nil_r schedule) at 1.
  rewrite nexis_while_quiet by done.
  cbn [while_collection_active fst self collection_active telemetry_streams].
  rewrite log_of_aggregate_ticks, Hlog. cbn [fmap option_fmap option_map].
  do 3 f_equal. apply list_fmap_ext. intros _ t _.
  unfold value_of. by rewrite category_data_mapping_under.
Qed.

(** Two passes on a log that declares [heart_rate]: the sequence holds
    the two simulated heart rates, [70 + 1.5], under the clock readings
    of the two passes, the earlier pass first. *)
Lemma nexis_collection_logs_in_order_witness :
  log_of (telemetry_streams
            (self (nexis_collection
                     [ {| now := {| instant := 1; hour := 12; weekday := 3 |};
                          rng := example_draws; during_sleep := Resumed |};
                       {| now := {| instant := 2; hour := 12; weekday := 3 |};
                          rng := example_draws; during_sleep := Resumed |} ]
                     heart_rate_log).1.1))
    "physiological" "heart_rate"
  = Some [ {| entry_timestamp := {| instant := 1; hour := 12; weekday := 3 |};
              entry_value := 71.5 |};
           {| entry_timestamp := {| instant := 2; hour := 12; weekday := 3 |};
              entry_value := 71.5 |} ].
Proof.
  rewrite (nexis_collection_logs_in_order _ heart_rate_log
             "physiological" "heart_rate" []);
    [reflexivity|reflexivity|by repeat constructor|reflexivity].
Defined.

(** A pass on a log without the first category: the aggregation raises
    at once, and the pass is the error line and a wait of one second. *)
Lemma nexis_iteration_no_physiological t w :
  telemetry_streams (self w) !! "physiological"%string = None →
  nexis_iteration t w
  = asyncio_sleep (during_sleep t) 1
      {| self := self w;
         trace := trace w
                  ++ [Print (CollectionError (KeyError "physiological"))] |}.
Proof.
  intros Hmissing.
  unfold nexis_iteration, iteration, try_except, try_suite, simulated_sensors.
  rewrite bind_unfold. unfold ret at 1.
  rewrite bind_unfold. unfold process_and_store.
  rewrite bind_unfold. unfold store_in_streams, category_data.
  cbn [for_each]. rewrite bind_unfold.
  rewrite for_each_items_missing; [|done|].
  - cbn [is_Exception]. unfold except_suite. by rewrite bind_unfold.
  - rewrite map_to_list_empty_iff. apply insert_non_empty.
Qed.

(** X16. On a collector whose log has no [physiological] category,
    every pass fails in the aggregation with [KeyError], before anything
    is logged or persisted: a quiet run prints the error line and waits
    one second, pass after pass, leaves the collector as it was, and is
    still running when the schedule is used up. *)
Theorem nexis_collection_no_physiological (schedule : list tick) (w : world) :
  telemetry_streams (self w) !! "physiological"%string = None →
  quiet schedule →
  nexis_collection schedule w
  = ({| self :=
          {| telemetry_streams := telemetry_streams (self w);
             collection_active := true;
             sample_rate := sample_rate (self w) |};
        trace := trace w
                 ++ Print Starting
                    :: concat
                         ((λ _, [ Print (CollectionError (KeyError "physiological"));
                                  Sleep 1 ])
                            <$> schedule) |},
     StillRunning, []).
Proof.
  intros Hmissing Hquiet.
  unfold nexis_collection, start_continuous_collection.
  set (w0 := {| self := _; trace := trace w ++ [Print Starting] |}).
  assert (∀ tr,
            while_collection_active simulated_sensors _store_training_data
              schedule {| self := self w0; trace := tr |}
            = ({| self := self w0;
                  trace := tr ++ concat
                                   ((λ _, [ Print (CollectionError
                                                     (KeyError "physiological"));
                                            Sleep 1 ])
                                      <$> schedule) |},
               StillRunning, [])) as Hrun.
  { induction Hquiet as [|t schedule Ht _ IH]; intros tr.
    - cbn. by rewrite app_nil_r.
    - rewrite while_collection_active_step by done.
      pose proof (nexis_iteration_no_physiological t
                    {| self := self w0; trace := tr |} Hmissing) as Hpass.
      unfold nexis_iteration in Hpass.
      rewrite Hpass, asyncio_sleep_cases, Ht. cbn [self trace].
      rewrite IH, fmap_cons, concat_cons. by rewrite <- !app_assoc. }
  change w0 with {| self := self w0; trace := trace w ++ [Print Starting] |}.
  rewrite Hrun. subst w0. cbn [self]. by rewrite <- app_assoc.
Qed.

Lemma nexis_collection_no_physiological_witness :
  nexis_collection [example_tick Resumed; example_tick Resumed] emptied
  = ({| self :=
          {| telemetry_streams := telemetry_streams (self emptied);
             collection_active := true;
             sample_rate := sample_rate (self emptied) |};
        trace := trace emptied
                 ++ Print Starting
                    :: concat
                         ((λ _, [ Print (CollectionError (KeyError "physiological"));
                                  Sleep 1 ])
                            <$> [example_tick Resumed; example_tick Resumed]) |},
     StillRunning, []).
Proof.
  apply nexis_collection_no_physiological;
    [reflexivity|by repeat constructor].
Defined.
